(** * Guild activity reporter: a shallow embedding of [script.py]

    The script fetches a guild roster, fetches one player profile per
    member, ranks the members by inactivity and writes a fixed-width text
    report that is then posted to a webhook.

    The embedding follows the script function by function.  Python
    dictionaries with a fixed set of keys are records; a key that some
    code path leaves out is an [option] field.  Exceptions are an error
    result, and the effects of the run (HTTP requests, sleeps, the report
    file, the webhook upload) are recorded in a trace that every effectful
    function threads through.  Text is a sequence of 8-bit characters. *)

From Stdlib Require Import ZArith List String Ascii Bool Lia Permutation.
From Stdlib Require Import Sorting.Sorted DecimalString.
From Stdlib Require Import Floats.SpecFloat.
Import ListNotations.

Local Open Scope string_scope.
Local Open Scope list_scope.
Local Open Scope Z_scope.

(** ** Python built-ins used by the script *)

Module Py.

(** [str(n)] for an [int]. *)
Definition str_of_int (z : Z) : string :=
  NilZero.string_of_int (Z.to_int z).

(** [c * n] for a one-character string [c]. *)
Fixpoint repeat_char (c : ascii) (n : nat) : string :=
  match n with
  | O => EmptyString
  | S n' => String c (repeat_char c n')
  end.

(** [format(s, "<w")]: left-aligned in a field of minimum width [w]. *)
Definition ljust (s : string) (w : nat) : string :=
  (s ++ repeat_char " " (w - String.length s))%string.

(** [format(s, ">w")]: right-aligned in a field of minimum width [w]. *)
Definition rjust (s : string) (w : nat) : string :=
  (repeat_char " " (w - String.length s) ++ s)%string.

(** [s.replace("Z", "+00:00")]: every occurrence is replaced. *)
Fixpoint replace_Z (s : string) : string :=
  match s with
  | EmptyString => EmptyString
  | String c s' =>
      if Ascii.eqb c "Z" then ("+00:00" ++ replace_Z s')%string
      else String c (replace_Z s')
  end.

(** [not s] for a string. *)
Definition falsy (s : string) : bool :=
  match s with EmptyString => true | _ => false end.

(** [os.path.basename(p)] on a POSIX system: what follows the last
    slash.  [current] is what has been read since the last slash. *)
Fixpoint basename_from (p : string) (current : string) : string :=
  match p with
  | EmptyString => current
  | String c p' =>
      if Ascii.eqb c "/" then basename_from p' EmptyString
      else basename_from p' (current ++ String c EmptyString)%string
  end.

Definition basename (p : string) : string := basename_from p EmptyString.

(** *** Floats

    A Python [float] is an IEEE 754 binary64 value, represented by the
    standard library's [spec_float]: a sign, a positive mantissa [m] and
    an exponent [e] standing for [m * 2^e]. *)

(** Nearest integer to [n / d] for [0 <= n] and [0 < d], ties to even. *)
Definition round_half_even (n d : Z) : Z :=
  let q := n / d in
  let r := n mod d in
  if 2 * r <? d then q
  else if d <? 2 * r then q + 1
  else if Z.even q then q else q + 1.

(** Numerator and denominator of [n / (d * 2^e)]. *)
Definition scaled (n d e : Z) : Z * Z :=
  if 0 <=? e then (n, d * 2 ^ e) else (n * 2 ^ (- e), d).

(** The exponent [e] for which [n / (d * 2^e)] lies in [[2^52, 2^53)]. *)
Definition binade (n d : Z) : Z :=
  let e0 := Z.log2 n - Z.log2 d - 52 in
  let '(p, q) := scaled n d e0 in
  if p / q <? 2 ^ 52 then e0 - 1 else e0.

(** [a / b] for two [int]s with [0 < b]: the binary64 value nearest to
    the exact quotient.  CPython rounds the exact quotient once
    (round-half-even), whatever the size of the operands; results beyond
    the largest finite float raise [OverflowError] ([None] here).  The
    quotients of the script are 0 or at least [10^-6] in magnitude, so
    the subnormal range is left out. *)
Definition true_divide (a b : Z) : option spec_float :=
  if a =? 0 then Some (S754_zero false)
  else
    let n := Z.abs a in
    let e := binade n b in
    let '(p, q) := scaled n b e in
    let m := round_half_even p q in
    if 2 ^ 1024 <=? m * 2 ^ e then None
    else Some (S754_finite (a <? 0) (Z.to_pos m) e).

(** [float(z)] for an [int]. *)
Definition float_of_int (z : Z) : option spec_float := true_divide z 1.

(** [int(x)] for a finite float: truncation toward zero. *)
Definition int_of_float (x : spec_float) : option Z :=
  match x with
  | S754_zero _ => Some 0
  | S754_finite s m e =>
      let a := if 0 <=? e then Z.pos m * 2 ^ e else Z.pos m / 2 ^ (- e) in
      Some (if s then - a else a)
  | S754_infinity _ | S754_nan => None
  end.

(** [format(x, ".1f")] for a float: the exact binary value rounded to
    one decimal, ties to even; the sign is kept on a zero result. *)
Definition fixed1 (x : spec_float) : string :=
  let sign (s : bool) := if s then "-" else EmptyString in
  match x with
  | S754_zero s => (sign s ++ "0.0")%string
  | S754_infinity s => (sign s ++ "inf")%string
  | S754_nan => "nan"
  | S754_finite s m e =>
      let '(p, q) := scaled (10 * Z.pos m) 1 (- e) in
      let t := round_half_even p q in
      (sign s ++ str_of_int (t / 10) ++ "." ++ str_of_int (t mod 10))%string
  end.

End Py.

(** ** Exceptions, effects and the outside world *)

Inductive exn_kind :=
| RequestException   (* requests.RequestException and its subclasses *)
| JSONDecodeError
| KeyError
| AttributeError
| TypeError
| OverflowError
| OSError            (* FileNotFoundError, PermissionError, ... *)
| PlainException.    (* Exception(...) raised by the script itself *)

(** An exception with [str(e)]. *)
Record exn := Exn { exn_kind_of : exn_kind; exn_str : string }.

Inductive result (A : Type) :=
| Ok (a : A)
| Raise (e : exn).
Arguments Ok {A} a.
Arguments Raise {A} e.

(** A number decoded from JSON, or an [int] literal of the script. *)
Inductive number :=
| NInt (z : Z)
| NFloat (x : spec_float).

(** Documents of the two endpoints, at the types the API gives them.  A
    key that may be missing is an [option]; for the keys read without a
    default, ["uuid"] and ["lastJoin"], [None] also stands for a [null]
    value, as [dict.get] returns [None] for both. *)
Record MemberInfo := {
  mi_uuid : option string;
  mi_contributed : option Z;
  mi_joined : option string
}.

(** Under ["members"], a rank maps to its players by name; the key
    ["total"] maps to a count. *)
Inductive RankEntry :=
| Count (n : Z)
| Players (players : list (string * MemberInfo)).

Record GuildDoc := {
  gd_name : option string;
  gd_members : option (list (string * RankEntry))
}.

Record ProfileDoc := {
  pd_username : option string;
  pd_playtime : option number;
  pd_lastJoin : option string
}.

(** What [resp.json()] gives. *)
Inductive Body :=
| NotJson (why : string)
| GuildJson (d : GuildDoc)
| ProfileJson (d : ProfileDoc).

Record Response := { status_code : Z; body : Body }.

(** What [requests.get] does: it returns a response or raises a
    [RequestException] (connection error, timeout, ...). *)
Inductive GetOutcome :=
| Responded (r : Response)
| RequestFailed (why : string).

Inductive Event :=
| EvGet (url : string)                       (* requests.get(url, timeout=10) *)
| EvSleep (seconds : Z)                      (* time.sleep(RETRY_DELAY) *)
| EvThrottle                                 (* time.sleep(random.uniform(DELAY_MIN, DELAY_MAX)) *)
| EvWrite (path content : string)            (* the file at the end of the [with open] block *)
| EvPost (url caption filename : string).    (* requests.post(url, data, files, timeout=30) *)

(** The outside world answers each interaction; an answer may depend on
    how many effects the run has performed so far.  Instants are counted in
    microseconds. *)
Record World := {
  http_get : nat -> string -> GetOutcome;
  http_post : nat -> string -> GetOutcome;
  file_exists : string -> bool;  (* a file that is there before the run and that open(path, "rb") can read *)
  utc_now : nat -> Z;            (* datetime.now(timezone.utc) *)
  local_stamp : nat -> string    (* datetime.now().strftime('%Y-%m-%d %H:%M:%S') *)
}.

(** Effectful code: a function of the trace so far to a result and the
    trace extended by the effects performed.  Console output is not
    recorded; printing and opening the report file for writing are taken
    to succeed. *)
Definition M (A : Type) : Type := list Event -> result A * list Event.

Definition ret {A} (a : A) : M A := fun tr => (Ok a, tr).

Definition raise {A} (e : exn) : M A := fun tr => (Raise e, tr).

Definition bind {A B} (c : M A) (k : A -> M B) : M B :=
  fun tr =>
    match c tr with
    | (Ok a, tr') => k a tr'
    | (Raise e, tr') => (Raise e, tr')
    end.

(** [try: c except Exception as e: h e]. *)
Definition try_except {A} (c : M A) (h : exn -> M A) : M A :=
  fun tr =>
    match c tr with
    | (Ok a, tr') => (Ok a, tr')
    | (Raise e, tr') => h e tr'
    end.

Definition emit (ev : Event) : M unit := fun tr => (Ok tt, tr ++ [ev]).

Definition lift {A} (r : result A) : M A := fun tr => (r, tr).

(** The number of effects performed so far. *)
Definition clock : M nat := fun tr => (Ok (List.length tr), tr).

Declare Scope run_scope.
Delimit Scope run_scope with run.
Notation "x <- c ;; k" := (bind c (fun x => k))
  (at level 100, c at next level, right associativity) : run_scope.
Notation "c ;;; k" := (bind c (fun _ => k))
  (at level 100, right associativity) : run_scope.
Local Open Scope run_scope.

(** ** Configuration *)

Record Config := { GUILD_PREFIX : string; WEBHOOK_URL : string }.

Definition environ := list (string * string).

(** [os.environ[key]]. *)
Fixpoint getenv (env : environ) (key : string) : option string :=
  match env with
  | [] => None
  | (k, v) :: rest => if String.eqb k key then Some v else getenv rest key
  end.

(** The [try] block at the top of the script; [None] is [sys.exit(1)]. *)
Definition load_config (env : environ) : option Config :=
  match getenv env "GUILD_PREFIX" with
  | None => None
  | Some prefix =>
      match getenv env "WEBHOOK_URL" with
      | None => None
      | Some url => Some {| GUILD_PREFIX := prefix; WEBHOOK_URL := url |}
      end
  end.

Definition API_GUILD_URL (cfg : Config) : string :=
  ("https://api.wynncraft.com/v3/guild/prefix/" ++ GUILD_PREFIX cfg)%string.

Definition API_PLAYER_URL (uuid : string) : string :=
  ("https://api.wynncraft.com/v3/player/" ++ uuid)%string.

Definition MAX_RETRIES : nat := 5.
Definition RETRY_DELAY : Z := 5.
Definition OUTPUT_FILE : string := "guild_activity.txt".

(** ** Safe request *)

(** [resp.raise_for_status()] raises [HTTPError], a [RequestException],
    for the client and server error statuses and for no other. *)
Definition raises_for_status (r : Response) : bool :=
  (400 <=? status_code r) && (status_code r <? 600).

(** One pass of the [for] loop body: [true] when the attempt ends in the
    rate-limit branch or in the [except] branch. *)
Definition attempt_failed (o : GetOutcome) : bool :=
  match o with
  | Responded r => (status_code r =? 429) || raises_for_status r
  | RequestFailed _ => true
  end.

(** The loop of [safe_request] with [n] attempts left. *)
Fixpoint attempts (w : World) (url : string) (n : nat) : M Response :=
  match n with
  | O =>
      raise (Exn PlainException
               ("Failed to fetch after " ++ Py.str_of_int (Z.of_nat MAX_RETRIES)
                ++ " attempts: " ++ url)%string)
  | S n' =>
      t <- clock ;;
      emit (EvGet url) ;;;
      match http_get w t url with
      | Responded resp =>
          if status_code resp =? 429 then
            emit (EvSleep RETRY_DELAY) ;;; attempts w url n'
          else if raises_for_status resp then
            emit (EvSleep RETRY_DELAY) ;;; attempts w url n'
          else ret resp
      | RequestFailed _ =>
          emit (EvSleep RETRY_DELAY) ;;; attempts w url n'
      end
  end.

Definition safe_request (w : World) (url : string) : M Response :=
  attempts w url MAX_RETRIES.

(** ** Guild roster *)

Module Member.
(** The dictionary that [fetch_guild_members] appends for one player. *)
Record t := make {
  uuid : string;
  guild_name : string;
  rank : string;
  contributed : Z;
  joined : string
}.
End Member.

Definition default {A} (d : A) (o : option A) : A :=
  match o with Some a => a | None => d end.

(** The inner loop: [for name, info in players.items()], appending to
    [members]. *)
Fixpoint add_players (rank : string) (players : list (string * MemberInfo))
    (members : list Member.t) : list Member.t :=
  match players with
  | [] => members
  | (name, info) :: rest =>
      match mi_uuid info with
      | None => add_players rank rest members
      | Some uuid =>
          if Py.falsy uuid then add_players rank rest members
          else
            add_players rank rest
              (members ++
               [Member.make uuid name rank
                  (default 0 (mi_contributed info))
                  (default "Unknown"%string (mi_joined info))])
      end
  end.

(** The outer loop: [for rank, players in data["members"].items()].  A
    count has no [items]. *)
Fixpoint add_ranks (ranks : list (string * RankEntry))
    (members : list Member.t) : result (list Member.t) :=
  match ranks with
  | [] => Ok members
  | (rank, entry) :: rest =>
      if String.eqb rank "total" then add_ranks rest members
      else
        match entry with
        | Players players => add_ranks rest (add_players rank players members)
        | Count _ =>
            Raise (Exn AttributeError "'int' object has no attribute 'items'")
        end
  end.

(** [resp.json()] read as a guild document; a profile document has
    neither of its keys. *)
Definition json_guild (r : Response) : result GuildDoc :=
  match body r with
  | NotJson why => Raise (Exn JSONDecodeError why)
  | GuildJson d => Ok d
  | ProfileJson _ => Ok {| gd_name := None; gd_members := None |}
  end.

Definition subscript {A} (key : string) (o : option A) : result A :=
  match o with
  | Some a => Ok a
  | None => Raise (Exn KeyError ("'" ++ key ++ "'")%string)
  end.

Definition fetch_guild_members (cfg : Config) (w : World) : M (list Member.t) :=
  resp <- safe_request w (API_GUILD_URL cfg) ;;
  data <- lift (json_guild resp) ;;
  ranks <- lift (subscript "members" (gd_members data)) ;;
  members <- lift (add_ranks ranks []) ;;
  _name <- lift (subscript "name" (gd_name data)) ;;
  ret members.

(** ** Player activity *)

(** A [datetime]: the wall-clock reading in microseconds since the start
    of the calendar, and the UTC offset in microseconds of an aware value
    ([None] for a naive one). *)
Record datetime := { wall_us : Z; utcoffset : option Z }.

(** A [timedelta], normalised as Python keeps it: [0 <= seconds < 86400]
    and [0 <= microseconds < 10^6], the sign carried by [days]. *)
Record timedelta := { days : Z; seconds : Z; microseconds : Z }.

Definition timedelta_of_us (t : Z) : timedelta :=
  {| days := t / 86400000000;
     seconds := (t mod 86400000000) / 1000000;
     microseconds := t mod 1000000 |}.

(** [now - dt] for an aware [now] in UTC. *)
Definition subtract (now_us : Z) (dt : datetime) : result timedelta :=
  match utcoffset dt with
  | None =>
      Raise (Exn TypeError "can't subtract offset-naive and offset-aware datetimes")
  | Some off => Ok (timedelta_of_us (now_us - (wall_us dt - off)))
  end.

(** [delta.total_seconds()]. *)
Definition total_seconds (d : timedelta) : option spec_float :=
  Py.true_divide ((days d * 86400 + seconds d) * 1000000 + microseconds d) 1000000.

(** [int(delta.total_seconds())]. *)
Definition int_total_seconds (d : timedelta) : result Z :=
  match total_seconds d with
  | Some x =>
      match Py.int_of_float x with
      | Some z => Ok z
      | None => Raise (Exn OverflowError "cannot convert float infinity to integer")
      end
  | None => Raise (Exn OverflowError "integer division result too large for a float")
  end.

(** The value under ["inactivity_seconds"]: an [int] or [float("inf")]. *)
Inductive inactivity :=
| Seconds (z : Z)
| Infinity.

Module Activity.
(** The dictionary that [fetch_player_info] returns. *)
Record t := make {
  current_name : string;
  playtime : number;
  delta_str : string;
  last_join_dt : option datetime;
  inactivity_seconds : inactivity
}.
End Activity.

(** [resp.json()] read as a profile document; a guild document has none
    of its keys. *)
Definition json_profile (r : Response) : result ProfileDoc :=
  match body r with
  | NotJson why => Raise (Exn JSONDecodeError why)
  | ProfileJson d => Ok d
  | GuildJson _ =>
      Ok {| pd_username := None; pd_playtime := None; pd_lastJoin := None |}
  end.

Section PlayerInfo.

(** [datetime.fromisoformat], a function of the Python library whose
    accepted spellings depend on the interpreter's version; [None] is
    the [ValueError] it raises. *)
Variable fromisoformat : string -> option datetime.

(** The part of [fetch_player_info] after the document is decoded, at
    the instant [now_us] that the clock shows when it is read. *)
Definition activity_of (uuid : string) (data : ProfileDoc) (now_us : Z)
  : result Activity.t :=
  let username := default uuid (pd_username data) in
  let playtime := default (NInt 0) (pd_playtime data) in
  let never_joined :=
    Ok (Activity.make username playtime "Never joined" None Infinity) in
  match pd_lastJoin data with
  | None => never_joined
  | Some last_join_str =>
      if Py.falsy last_join_str then never_joined
      else
        match fromisoformat (Py.replace_Z last_join_str) with
        | None =>
            Ok (Activity.make username playtime "Invalid date" None Infinity)
        | Some last_join_dt =>
            match subtract now_us last_join_dt with
            | Raise e => Raise e
            | Ok delta =>
                match int_total_seconds delta with
                | Raise e => Raise e
                | Ok inactivity_seconds =>
                    let hours := seconds delta / 3600 in
                    let minutes := (seconds delta mod 3600) / 60 in
                    let delta_str :=
                      (Py.str_of_int (days delta) ++ "d "
                       ++ Py.str_of_int hours ++ "h "
                       ++ Py.str_of_int minutes ++ "m ago")%string in
                    Ok (Activity.make username playtime delta_str
                          (Some last_join_dt) (Seconds inactivity_seconds))
                end
            end
        end
  end.

Definition fetch_player_info (w : World) (uuid : string) : M Activity.t :=
  resp <- safe_request w (API_PLAYER_URL uuid) ;;
  data <- lift (json_profile resp) ;;
  t <- clock ;;
  lift (activity_of uuid data (utc_now w t)).

End PlayerInfo.

(** ** Report rows *)

Module Row.
(** An element of [results]: the merge of a member and its activity, or
    the placeholder of the [except] branch, which has fewer keys. *)
Record t := make {
  uuid : string;
  guild_name : string;
  rank : string;
  contributed : option Z;
  joined : option string;
  current_name : string;
  playtime : number;
  delta_str : string;
  last_join_dt : option (option datetime);
  inactivity_seconds : option inactivity
}.
End Row.

(** [{**m, **info}]: the two dictionaries have no key in common. *)
Definition merged (m : Member.t) (info : Activity.t) : Row.t :=
  {| Row.uuid := Member.uuid m;
     Row.guild_name := Member.guild_name m;
     Row.rank := Member.rank m;
     Row.contributed := Some (Member.contributed m);
     Row.joined := Some (Member.joined m);
     Row.current_name := Activity.current_name info;
     Row.playtime := Activity.playtime info;
     Row.delta_str := Activity.delta_str info;
     Row.last_join_dt := Some (Activity.last_join_dt info);
     Row.inactivity_seconds := Some (Activity.inactivity_seconds info) |}.

(** The dictionary appended in the [except] branch of the loop. *)
Definition placeholder (m : Member.t) (e : exn) : Row.t :=
  {| Row.uuid := Member.uuid m;
     Row.guild_name := Member.guild_name m;
     Row.rank := Member.rank m;
     Row.contributed := None;
     Row.joined := None;
     Row.current_name := "Error";
     Row.playtime := NInt 0;
     Row.delta_str := ("Error: " ++ exn_str e)%string;
     Row.last_join_dt := None;
     Row.inactivity_seconds := None |}.

(** ** Ranking *)

(** [x.get("inactivity_seconds", 0)]. *)
Definition sort_key (x : Row.t) : inactivity :=
  default (Seconds 0) (Row.inactivity_seconds x).

(** [a <= b] between [int]s and [float("inf")]. *)
Definition inactivity_leb (a b : inactivity) : bool :=
  match a, b with
  | _, Infinity => true
  | Infinity, Seconds _ => false
  | Seconds x, Seconds y => x <=? y
  end.

Definition inactivity_eqb (a b : inactivity) : bool :=
  match a, b with
  | Infinity, Infinity => true
  | Seconds x, Seconds y => x =? y
  | _, _ => false
  end.

Section Sort.

Context {A : Type}.
Variable key : A -> inactivity.

(** [list.sort(key=key)] is a stable ascending sort: elements come out
    in non-decreasing key order, and elements with equal keys keep
    their order.  It is modelled by insertion, each element being placed
    before the first later element whose key is not smaller. *)
Fixpoint insert (x : A) (l : list A) : list A :=
  match l with
  | [] => [x]
  | y :: l' =>
      if inactivity_leb (key x) (key y) then x :: y :: l'
      else y :: insert x l'
  end.

Fixpoint sort (l : list A) : list A :=
  match l with
  | [] => []
  | x :: l' => insert x (sort l')
  end.

(** [list.sort(key=key, reverse=True)]: CPython reverses the list,
    sorts it ascending, and reverses the outcome, so that elements with
    equal keys keep their original order. *)
Definition sort_reverse (l : list A) : list A := rev (sort (rev l)).

End Sort.

(** ** The report file *)

(** [f"{x:>6.1f}"] for a number; an [int] is converted to a float
    first.  A value of another JSON type under ["playtime"] ([null], a
    string), for which the format raises [TypeError] or [ValueError], is
    not a [number] and has no place in these documents. *)
Definition format_playtime (x : number) : result string :=
  match x with
  | NFloat f => Ok (Py.rjust (Py.fixed1 f) 6)
  | NInt z =>
      match Py.float_of_int z with
      | Some f => Ok (Py.rjust (Py.fixed1 f) 6)
      | None => Raise (Exn OverflowError "int too large to convert to float")
      end
  end.

Definition newline : string := String (ascii_of_nat 10) EmptyString.

(** The line written for one row. *)
Definition render_row (r : Row.t) : result string :=
  match format_playtime (Row.playtime r) with
  | Raise e => Raise e
  | Ok playtime =>
      Ok (Py.ljust (Row.guild_name r) 20 ++ " | "
          ++ Py.ljust (Row.current_name r) 20 ++ " | "
          ++ Py.ljust (Row.rank r) 10 ++ " | "
          ++ playtime ++ "h | "
          ++ Row.delta_str r ++ newline)%string
  end.

(** The lines before the rows. *)
Definition report_head (cfg : Config) (stamp : string) : string :=
  ("Guild: " ++ GUILD_PREFIX cfg ++ newline
   ++ "Generated at: " ++ stamp ++ newline
   ++ Py.repeat_char "=" 70 ++ newline ++ newline
   ++ Py.ljust "Old Name" 20 ++ " | " ++ Py.ljust "New Name" 20 ++ " | "
   ++ Py.ljust "Rank" 10 ++ " | " ++ Py.rjust "Playtime" 8 ++ " | Last Join"
   ++ newline
   ++ Py.repeat_char "-" 70 ++ newline)%string.

(** The [for r in results] loop of the [with open] block: the text
    written so far, and the exception that ended the loop if any. *)
Fixpoint write_rows (results : list Row.t) (written : string)
    : string * option exn :=
  match results with
  | [] => (written, None)
  | r :: rest =>
      match render_row r with
      | Ok line => write_rows rest (written ++ line)%string
      | Raise e => (written, Some e)
      end
  end.

(** The [with open(OUTPUT_FILE, "w")] block: the file holds what was
    written when the block is left, normally or not. *)
Definition write_report (cfg : Config) (w : World) (results : list Row.t)
    : M unit :=
  t <- clock ;;
  let '(content, failure) := write_rows results (report_head cfg (local_stamp w t)) in
  emit (EvWrite OUTPUT_FILE content) ;;;
  match failure with
  | None => ret tt
  | Some e => raise e
  end.

(** ** Webhook *)

(** [message or f"Guild activity report for {GUILD_PREFIX}"]. *)
Definition caption_of (cfg : Config) (message : option string) : string :=
  match message with
  | Some s =>
      if Py.falsy s then ("Guild activity report for " ++ GUILD_PREFIX cfg)%string
      else s
  | None => ("Guild activity report for " ++ GUILD_PREFIX cfg)%string
  end.

(** [open(filepath, "rb")] succeeds on a file that the run has written
    or that was there before the run. *)
Definition written_to (filepath : string) (ev : Event) : bool :=
  match ev with
  | EvWrite path _ => String.eqb path filepath
  | _ => false
  end.

Definition can_open (w : World) (filepath : string) : M bool :=
  fun tr => (Ok (existsb (written_to filepath) tr || file_exists w filepath), tr).

Definition send_webhook_file (cfg : Config) (w : World) (filepath : string)
    (message : option string) : M unit :=
  if Py.falsy (WEBHOOK_URL cfg) then ret tt
  else
    try_except
      (opened <- can_open w filepath ;;
       if opened then
         t <- clock ;;
         emit (EvPost (WEBHOOK_URL cfg) (caption_of cfg message)
                 (Py.basename filepath)) ;;;
         match http_post w t (WEBHOOK_URL cfg) with
         | Responded resp =>
             if raises_for_status resp
             then raise (Exn RequestException "HTTPError")
             else ret tt
         | RequestFailed why => raise (Exn RequestException why)
         end
       else raise (Exn OSError "No such file or directory"))
      (fun _ => ret tt).

(** ** Main *)

Section Main.

Variable fromisoformat : string -> option datetime.

(** The [for i, m in enumerate(members, start=1)] loop, appending to
    [results]. *)
Fixpoint collect (w : World) (members : list Member.t)
    (results : list Row.t) : M (list Row.t) :=
  match members with
  | [] => ret results
  | m :: rest =>
      row <- try_except
               (info <- fetch_player_info fromisoformat w (Member.uuid m) ;;
                ret (merged m info))
               (fun e => ret (placeholder m e)) ;;
      emit EvThrottle ;;;
      collect w rest (results ++ [row])
  end.

Definition main (cfg : Config) (w : World) : M unit :=
  members <- fetch_guild_members cfg w ;;
  results <- collect w members [] ;;
  let results := sort_reverse sort_key results in
  write_report cfg w results ;;;
  t <- clock ;;
  send_webhook_file cfg w OUTPUT_FILE
    (Some ("Guild report for `" ++ GUILD_PREFIX cfg ++ "` generated at "
           ++ local_stamp w t ++ " UTC")%string).

(** The whole process: its exit status and the effects it performed. *)
Definition run (env : environ) (w : World) : Z * list Event :=
  match load_config env with
  | None => (1, [])
  | Some cfg =>
      match main cfg w [] with
      | (Ok _, tr) => (0, tr)
      | (Raise _, tr) => (1, tr)
      end
  end.

End Main.

(** ** A reader for the timestamp format of the API

    [Iso.parse] reads [YYYY-MM-DDTHH:MM:SS], an optional fraction of three
    or six digits and an optional offset [+HH:MM] or [-HH:MM], as every
    version of [datetime.fromisoformat] does; spellings that only some
    versions accept are rejected.  It serves as the instance of
    [fromisoformat] in the examples. *)

Module Iso.

Definition digit (c : ascii) : option Z :=
  let n := Z.of_nat (nat_of_ascii c) in
  if (48 <=? n) && (n <=? 57) then Some (n - 48) else None.

(** Exactly [n] digits. *)
Fixpoint digits (n : nat) (acc : Z) (s : string) : option (Z * string) :=
  match n with
  | O => Some (acc, s)
  | S n' =>
      match s with
      | String c s' =>
          match digit c with
          | Some d => digits n' (10 * acc + d) s'
          | None => None
          end
      | EmptyString => None
      end
  end.

Definition expect (c : ascii) (s : string) : option string :=
  match s with
  | String c' s' => if Ascii.eqb c c' then Some s' else None
  | EmptyString => None
  end.

Definition is_leap (y : Z) : bool :=
  ((y mod 4 =? 0) && negb (y mod 100 =? 0)) || (y mod 400 =? 0).

Definition days_in_month (y m : Z) : Z :=
  if m =? 2 then (if is_leap y then 29 else 28)
  else if (m =? 4) || (m =? 6) || (m =? 9) || (m =? 11) then 30
  else 31.

Definition days_before_year (y : Z) : Z :=
  let p := y - 1 in p * 365 + p / 4 - p / 100 + p / 400.

Fixpoint days_before_month (y : Z) (m : nat) : Z :=
  match m with
  | O => 0
  | S O => 0
  | S m' => days_before_month y m' + days_in_month y (Z.of_nat m')
  end.

(** [date(y, m, d).toordinal()]. *)
Definition ordinal (y m d : Z) : Z :=
  days_before_year y + days_before_month y (Z.to_nat m) + d.

(** Microseconds from the start of the calendar to a wall-clock
    reading. *)
Definition instant (y m d hh mm ss us : Z) : Z :=
  ((ordinal y m d * 86400 + hh * 3600 + mm * 60 + ss) * 1000000) + us.

Definition parse_fraction (s : string) : option (Z * string) :=
  match expect "." s with
  | None => Some (0, s)
  | Some s1 =>
      match digits 6 0 s1 with
      | Some r => Some r
      | None =>
          match digits 3 0 s1 with
          | Some (ms, s2) => Some (ms * 1000, s2)
          | None => None
          end
      end
  end.

Definition parse_offset (s : string) : option (option Z) :=
  match s with
  | EmptyString => Some None
  | String c s1 =>
      let sign := if Ascii.eqb c "+" then Some 1
                  else if Ascii.eqb c "-" then Some (-1) else None in
      match sign, digits 2 0 s1 with
      | Some sg, Some (hh, s2) =>
          match expect ":" s2 with
          | Some s3 =>
              match digits 2 0 s3 with
              | Some (mm, EmptyString) =>
                  if (hh <? 24) && (mm <? 60)
                  then Some (Some (sg * (hh * 3600 + mm * 60) * 1000000))
                  else None
              | _ => None
              end
          | None => None
          end
      | _, _ => None
      end
  end.

Definition parse_time (day : Z) (s : string) : option datetime :=
  match digits 2 0 s with
  | Some (hh, s1) =>
    match expect ":" s1 with
    | Some s2 =>
      match digits 2 0 s2 with
      | Some (mm, s3) =>
        match expect ":" s3 with
        | Some s4 =>
          match digits 2 0 s4 with
          | Some (ss, s5) =>
            match parse_fraction s5 with
            | Some (us, s6) =>
              match parse_offset s6 with
              | Some off =>
                  if (hh <? 24) && (mm <? 60) && (ss <? 60)
                  then Some {| wall_us :=
                                 (day * 86400 + hh * 3600 + mm * 60 + ss)
                                 * 1000000 + us;
                               utcoffset := off |}
                  else None
              | None => None
              end
            | None => None
            end
          | None => None
          end
        | None => None
        end
      | None => None
      end
    | None => None
    end
  | None => None
  end.

Definition parse (s : string) : option datetime :=
  match digits 4 0 s with
  | Some (y, s1) =>
    match expect "-" s1 with
    | Some s2 =>
      match digits 2 0 s2 with
      | Some (m, s3) =>
        match expect "-" s3 with
        | Some s4 =>
          match digits 2 0 s4 with
          | Some (d, s5) =>
            match expect "T" s5 with
            | Some s6 =>
                if (1 <=? y) && (1 <=? m) && (m <=? 12) && (1 <=? d)
                   && (d <=? days_in_month y m)
                then parse_time (ordinal y m d) s6
                else None
            | None => None
            end
          | None => None
          end
        | None => None
        end
      | None => None
      end
    | None => None
    end
  | None => None
  end.

End Iso.

(** ** Vocabulary of the statements *)

(** One failed attempt of [safe_request]: the request and the cooldown. *)
Definition retry_round (url : string) : list Event :=
  [EvGet url; EvSleep RETRY_DELAY].

Fixpoint retry_rounds (url : string) (k : nat) : list Event :=
  match k with
  | O => []
  | S k' => retry_round url ++ retry_rounds url k'
  end.

(** The exception raised when the attempts have run out. *)
Definition exhausted (url : string) : exn :=
  Exn PlainException ("Failed to fetch after 5 attempts: " ++ url)%string.

Definition is_get (ev : Event) : bool :=
  match ev with EvGet _ => true | _ => false end.

Definition is_post (ev : Event) : bool :=
  match ev with EvPost _ _ _ => true | _ => false end.

(** [a] may come before [b] in ascending order of the key. *)
Definition ascends {A : Type} (key : A -> inactivity) (a b : A) : Prop :=
  inactivity_leb (key a) (key b) = true.

(** Rows in non-increasing order of their ranking key. *)
Definition descending (rows : list Row.t) : Prop :=
  StronglySorted
    (fun a b => inactivity_leb (sort_key b) (sort_key a) = true) rows.

(** The rows whose ranking key is [k], in the order of the list. *)
Definition with_key (k : inactivity) (rows : list Row.t) : list Row.t :=
  filter (fun r => inactivity_eqb (sort_key r) k) rows.

(** A member entry with a player identifier that [if not uuid] lets
    through. *)
Definition has_identifier (info : MemberInfo) : bool :=
  match mi_uuid info with
  | Some uuid => negb (Py.falsy uuid)
  | None => false
  end.

(** The entries of a roster document from which a member is made: rank,
    name in the guild and member information, in document order. *)
Definition remaining (ranks : list (string * RankEntry))
    : list (string * string * MemberInfo) :=
  flat_map
    (fun '(rank, entry) =>
       if String.eqb rank "total" then []
       else
         match entry with
         | Players players =>
             map (fun '(name, info) => (rank, name, info))
                 (filter (fun '(_, info) => has_identifier info) players)
         | Count _ => []
         end)
    ranks.

(** What a member owes to the entry it was made from. *)
Definition member_of (entry : string * string * MemberInfo) (m : Member.t)
    : Prop :=
  let '(rank, name, info) := entry in
  Member.rank m = rank /\ rank <> "total"%string /\
  Member.guild_name m = name /\
  mi_uuid info = Some (Member.uuid m) /\ Member.uuid m <> EmptyString /\
  Member.contributed m =
    match mi_contributed info with Some c => c | None => 0 end /\
  Member.joined m =
    match mi_joined info with Some j => j | None => "Unknown"%string end.



(** The float that [format(x, ".1f")] writes for a number. *)
Definition float_of (x : number) : option spec_float :=
  match x with
  | NFloat f => Some f
  | NInt z => Py.float_of_int z
  end.

(** The row that the loop of [main] makes for a member: the merge with
    the activity fetched at some point of the run, or the placeholder
    carrying the exception that the fetch raised there. *)
Definition row_of (fromisoformat : string -> option datetime) (w : World)
    (m : Member.t) (r : Row.t) : Prop :=
  exists tr0 : list Event,
    match fst (fetch_player_info fromisoformat w (Member.uuid m) tr0) with
    | Ok info => r = merged m info
    | Raise e => r = placeholder m e
    end.

(** The trace [tr'] continues [tr] without any upload. *)
Definition continues_without_post (tr tr' : list Event) : Prop :=
  exists ext : list Event, tr' = tr ++ ext /\ filter is_post ext = [].

(** The run up to and including the report file: [main] without its
    last statement. *)
Definition report (fromisoformat : string -> option datetime)
    (cfg : Config) (w : World) : M unit :=
  members <- fetch_guild_members cfg w ;;
  results <- collect fromisoformat w members [] ;;
  write_report cfg w (sort_reverse sort_key results).

(** ** A small guild, used for the examples *)

Module Sample.

Definition env : environ :=
  [("GUILD_PREFIX", "ABC"); ("WEBHOOK_URL", EmptyString)]%string.

Definition env_without_webhook : environ :=
  [("GUILD_PREFIX", "ABC")]%string.

Definition cfg : Config := {| GUILD_PREFIX := "ABC"; WEBHOOK_URL := EmptyString |}.

Definition ranks : list (string * RankEntry) :=
  [("total", Count 4);
   ("owner",
    Players
      [("Foo", {| mi_uuid := Some "u1"; mi_contributed := Some 10;
                  mi_joined := Some "2020-01-01T00:00:00.000Z" |});
       ("Ghost", {| mi_uuid := None; mi_contributed := Some 7;
                    mi_joined := None |})]);
   ("recruit",
    Players
      [("Bar", {| mi_uuid := Some "u2"; mi_contributed := None;
                  mi_joined := None |});
       ("Nobody", {| mi_uuid := Some EmptyString; mi_contributed := None;
                     mi_joined := None |});
       ("Baz", {| mi_uuid := Some "u3"; mi_contributed := Some 0;
                  mi_joined := Some "2024-06-01T00:00:00.000Z" |})])]%string.

Definition roster : GuildDoc :=
  {| gd_name := Some "Alpha"%string; gd_members := Some ranks |}.

(** 12.5 as a float. *)
Definition twelve_and_a_half : spec_float := S754_finite false 25 (-1).

Definition foo_profile : ProfileDoc :=
  {| pd_username := Some "FooBar"%string;
     pd_playtime := Some (NFloat twelve_and_a_half);
     pd_lastJoin := Some "2026-11-01T10:20:30.500Z"%string |}.

Definition baz_profile : ProfileDoc :=
  {| pd_username := None; pd_playtime := None; pd_lastJoin := None |}.

(** The guild endpoint and two profiles answer; the profile of [u2] is
    rate limited at every attempt, and nothing else is reachable. *)
Definition answer (url : string) : GetOutcome :=
  if String.eqb url (API_GUILD_URL cfg) then
    Responded {| status_code := 200; body := GuildJson roster |}
  else if String.eqb url (API_PLAYER_URL "u1") then
    Responded {| status_code := 200; body := ProfileJson foo_profile |}
  else if String.eqb url (API_PLAYER_URL "u2") then
    Responded {| status_code := 429; body := NotJson "Too Many Requests" |}
  else if String.eqb url (API_PLAYER_URL "u3") then
    Responded {| status_code := 200; body := ProfileJson baz_profile |}
  else RequestFailed "unreachable".

(** 4 November 2026, midnight UTC. *)
Definition now : Z := Iso.instant 2026 11 4 0 0 0 0.

Definition world : World :=
  {| http_get := fun _ url => answer url;
     http_post := fun _ _ => RequestFailed "unreachable";
     file_exists := fun _ => false;
     utc_now := fun _ => now;
     local_stamp := fun _ => "2026-11-04 00:00:00"%string |}.

(** A server that answers every request with 304 Not Modified. *)
Definition not_modified : World :=
  {| http_get := fun _ _ =>
       Responded {| status_code := 304; body := NotJson EmptyString |};
     http_post := fun _ _ => RequestFailed "unreachable";
     file_exists := fun _ => false;
     utc_now := fun _ => now;
     local_stamp := fun _ => "2026-11-04 00:00:00"%string |}.

Definition bar : Member.t := Member.make "u2" "Bar" "recruit" 0 "Unknown".

Definition foo : Member.t :=
  Member.make "u1" "Foo" "owner" 10 "2020-01-01T00:00:00.000Z".

(** Rows made by hand: a member seen 100 seconds ago, and the
    placeholder of a failed fetch. *)
Definition seen_recently : Row.t :=
  merged foo
    (Activity.make "FooBar" (NFloat twelve_and_a_half) "0d 0h 1m ago"
       (Some {| wall_us := now - 100000000; utcoffset := Some 0 |})
       (Seconds 100)).

Definition failed : Row.t :=
  placeholder bar (Exn PlainException "Failed to fetch after 5 attempts: x").


End Sample.

(** ** Further vocabulary *)

Definition is_throttle (ev : Event) : bool :=
  match ev with EvThrottle => true | _ => false end.

Definition is_write (ev : Event) : bool :=
  match ev with EvWrite _ _ => true | _ => false end.

(** The lines of a file, one after the other. *)
Fixpoint join (lines : list string) : string :=
  match lines with
  | [] => EmptyString
  | line :: rest => (line ++ join rest)%string
  end.

(** [lines] are the lines written for [rows], row by row. *)
Definition rendered (rows : list Row.t) (lines : list string) : Prop :=
  Forall2 (fun r line => render_row r = Ok line) rows lines.

(** The names and the rank of a row fit their columns, and so does its
    playtime once formatted. *)
Definition fits (r : Row.t) : Prop :=
  (String.length (Row.guild_name r) <= 20)%nat /\
  (String.length (Row.current_name r) <= 20)%nat /\
  (String.length (Row.rank r) <= 10)%nat /\
  exists x, float_of (Row.playtime r) = Some x /\
            (String.length (Py.fixed1 x) <= 6)%nat.

(** The report line of a member whose profile could not be fetched. *)
Definition error_line (m : Member.t) : string :=
  (Py.ljust (Member.guild_name m) 20 ++ " | "
   ++ Py.ljust "Error" 20 ++ " | "
   ++ Py.ljust (Member.rank m) 10 ++ " | "
   ++ "   0.0" ++ "h | "
   ++ "Error: Failed to fetch after 5 attempts: "
   ++ API_PLAYER_URL (Member.uuid m) ++ newline)%string.

(** The effects of the loop of [main] on a member whose profile could
    not be fetched. *)
Definition failed_fetch (m : Member.t) : list Event :=
  retry_rounds (API_PLAYER_URL (Member.uuid m)) 5 ++ [EvThrottle].

(** The caption that [main] gives to the upload. *)
Definition main_caption (cfg : Config) (stamp : string) : string :=
  ("Guild report for `" ++ GUILD_PREFIX cfg ++ "` generated at "
   ++ stamp ++ " UTC")%string.

(** The row that the loop of [main] appends for the member [m] when it
    reaches it with the trace [tr]: the fetch is the one made at [tr]. *)
Definition row_at (fromisoformat : string -> option datetime) (w : World)
    (m : Member.t) (tr : list Event) (r : Row.t) : Prop :=
  Row.uuid r = Member.uuid m /\
  Row.guild_name r = Member.guild_name m /\
  Row.rank r = Member.rank m /\
  match fst (fetch_player_info fromisoformat w (Member.uuid m) tr) with
  | Ok info => r = merged m info
  | Raise e =>
      r = placeholder m e /\
      Row.current_name r = "Error"%string /\
      Row.playtime r = NInt 0 /\
      Row.delta_str r = ("Error: " ++ exn_str e)%string /\
      Row.inactivity_seconds r = None
  end /\
  (forall e,
     fst (safe_request w (API_PLAYER_URL (Member.uuid m)) tr) = Raise e ->
     r = placeholder m e /\
     Row.delta_str r
     = ("Error: Failed to fetch after 5 attempts: "
        ++ API_PLAYER_URL (Member.uuid m))%string).

(** The loop of [main] from the trace [tr] to the trace [tr']: each
    member is fetched at the trace that the loop has reached, one row is
    appended, and the loop pauses and goes on from the trace that the
    fetch left. *)
Fixpoint loop_rows (fromisoformat : string -> option datetime) (w : World)
    (members : list Member.t) (tr : list Event) (rows : list Row.t)
    (tr' : list Event) : Prop :=
  match members, rows with
  | [], [] => tr' = tr
  | m :: members', r :: rows' =>
      row_at fromisoformat w m tr r /\
      loop_rows fromisoformat w members'
        (snd (fetch_player_info fromisoformat w (Member.uuid m) tr)
         ++ [EvThrottle])
        rows' tr'
  | _, _ => False
  end.



(** ** Further worlds for the examples *)

Module Scenario.

Definition env : environ :=
  [("GUILD_PREFIX", "ABC"); ("WEBHOOK_URL", "https://hooks.example/w")]%string.

Definition cfg : Config :=
  {| GUILD_PREFIX := "ABC"; WEBHOOK_URL := "https://hooks.example/w" |}.

(** No request gets through. *)
Definition offline : World :=
  {| http_get := fun _ _ => RequestFailed "unreachable";
     http_post := fun _ _ => RequestFailed "unreachable";
     file_exists := fun _ => false;
     utc_now := fun _ => Sample.now;
     local_stamp := fun _ => "2026-11-04 00:00:00"%string |}.

(** The first two requests of the run are rate limited; later ones are
    answered as in [Sample.world]. *)
Definition flaky : World :=
  {| http_get := fun t url =>
       if (t <? 4)%nat
       then Responded {| status_code := 429; body := NotJson "slow down" |}
       else Sample.answer url;
     http_post := fun _ _ => RequestFailed "unreachable";
     file_exists := fun _ => false;
     utc_now := fun _ => Sample.now;
     local_stamp := fun _ => "2026-11-04 00:00:00"%string |}.

(** The roster is served, no profile is. *)
Definition roster_only : World :=
  {| http_get := fun _ url =>
       if String.eqb url (API_GUILD_URL cfg) then Sample.answer url
       else RequestFailed "unreachable";
     http_post := fun _ _ => RequestFailed "unreachable";
     file_exists := fun _ => false;
     utc_now := fun _ => Sample.now;
     local_stamp := fun _ => "2026-11-04 00:00:00"%string |}.

(** A player whose last login lies half a second after [Sample.now]. *)
Definition early_profile : ProfileDoc :=
  {| pd_username := Some "Early"%string; pd_playtime := None;
     pd_lastJoin := Some "2026-11-04T00:00:00.500Z"%string |}.

End Scenario.

(** * Properties *)

(** ** The definitions at work *)

Example fixed1_rounds_ties_to_even :
  option_map Py.fixed1 (Py.true_divide 1 4) = Some "0.2"%string /\
  option_map Py.fixed1 (Py.true_divide 12345675 100) = Some "123456.8"%string /\
  option_map Py.fixed1 (Py.true_divide (-1) 100) = Some "-0.0"%string /\
  format_playtime (NInt 0) = Ok "   0.0"%string /\
  format_playtime (NInt (2 ^ 1024))
  = Raise (Exn OverflowError "int too large to convert to float").
Proof. repeat split. Qed.

Example int_of_half_a_second_ago :
  int_total_seconds (timedelta_of_us (-500000)) = Ok 0 /\
  timedelta_of_us (-500000)
  = {| days := -1; seconds := 86399; microseconds := 500000 |}.
Proof. split; reflexivity. Qed.

Example iso_parse_samples :
  Iso.parse (Py.replace_Z "2026-11-01T10:20:30.500Z")
  = Some {| wall_us := Iso.instant 2026 11 1 10 20 30 500000;
            utcoffset := Some 0 |} /\
  Iso.parse "2024-02-30T00:00:00" = None /\
  Iso.ordinal 2026 11 4 = 739924.
Proof. repeat split. Qed.

Example basename_samples :
  Py.basename "out/guild_activity.txt" = "guild_activity.txt"%string /\
  Py.basename "guild_activity.txt" = "guild_activity.txt"%string /\
  Py.basename "a/b/" = EmptyString /\ Py.basename "/x" = "x"%string /\
  Py.basename "a//b" = "b"%string.
Proof. repeat split. Qed.

(** The run on the sample guild: the profile of [u2] is rate limited five
    times, and the report lists the member who never joined first and
    the placeholder last. *)
Example sample_run :
  run Iso.parse Sample.env Sample.world
  = (0,
     [EvGet "https://api.wynncraft.com/v3/guild/prefix/ABC";
      EvGet "https://api.wynncraft.com/v3/player/u1"; EvThrottle]
     ++ retry_rounds "https://api.wynncraft.com/v3/player/u2" 5
     ++ [EvThrottle;
         EvGet "https://api.wynncraft.com/v3/player/u3"; EvThrottle;
         EvWrite "guild_activity.txt"
           (report_head Sample.cfg "2026-11-04 00:00:00"
            ++ "Baz                  | u3                   | recruit    |    0.0h | Never joined"
            ++ newline
            ++ "Foo                  | FooBar               | owner      |   12.5h | 2d 13h 39m ago"
            ++ newline
            ++ "Bar                  | Error                | recruit    |    0.0h | Error: Failed to fetch after 5 attempts: https://api.wynncraft.com/v3/player/u2"
            ++ newline)%string]).
Proof. vm_compute. reflexivity. Qed.

(** ** Ranking *)

Section SortFacts.

Context {A : Type}.
Variable key : A -> inactivity.

Lemma inactivity_leb_total (a b : inactivity) :
  inactivity_leb a b = false -> inactivity_leb b a = true.
Proof.
  destruct a, b; simpl; intros H; try reflexivity; try discriminate.
  apply Z.leb_le. apply Z.leb_gt in H. lia.
Qed.

Lemma inactivity_leb_trans (a b c : inactivity) :
  inactivity_leb a b = true -> inactivity_leb b c = true ->
  inactivity_leb a c = true.
Proof.
  destruct a, b, c; simpl; intros H1 H2; try reflexivity; try discriminate.
  apply Z.leb_le in H1, H2. apply Z.leb_le. lia.
Qed.

Lemma inactivity_eqb_eq (a b : inactivity) :
  inactivity_eqb a b = true <-> a = b.
Proof.
  destruct a, b; simpl; split; intros H;
    try reflexivity; try discriminate.
  - apply Z.eqb_eq in H. now subst.
  - inversion H. apply Z.eqb_refl.
Qed.

Lemma inactivity_leb_refl (a : inactivity) : inactivity_leb a a = true.
Proof. destruct a; simpl; [apply Z.leb_refl | reflexivity]. Qed.

Lemma insert_perm (x : A) (l : list A) :
  Permutation (x :: l) (insert key x l).
Proof.
  induction l as [|y l IH]; simpl.
  - apply Permutation_refl.
  - destruct (inactivity_leb (key x) (key y)).
    + apply Permutation_refl.
    + eapply perm_trans; [apply perm_swap|]. now apply perm_skip.
Qed.

Lemma sort_perm (l : list A) : Permutation l (sort key l).
Proof.
  induction l as [|x l IH]; simpl.
  - apply perm_nil.
  - eapply perm_trans; [apply perm_skip, IH | apply insert_perm].
Qed.

Lemma insert_ascending (x : A) (l : list A) :
  StronglySorted (ascends key) l ->
  StronglySorted (ascends key) (insert key x l).
Proof.
  induction 1 as [|y l Hl IH Hy]; simpl.
  - repeat constructor.
  - destruct (inactivity_leb (key x) (key y)) eqn:E.
    + constructor; [now constructor|].
      constructor; [exact E|].
      eapply Forall_impl; [|exact Hy].
      intros z Hz. unfold ascends in *.
      eauto using inactivity_leb_trans.
    + constructor; [exact IH|].
      eapply Permutation_Forall; [apply insert_perm|].
      constructor; [|exact Hy].
      now apply inactivity_leb_total.
Qed.

Lemma sort_ascending (l : list A) :
  StronglySorted (ascends key) (sort key l).
Proof.
  induction l as [|x l IH]; simpl.
  - constructor.
  - now apply insert_ascending.
Qed.

Lemma StronglySorted_snoc (R : A -> A -> Prop) (l : list A) (x : A) :
  StronglySorted R l -> Forall (fun y => R y x) l ->
  StronglySorted R (l ++ [x]).
Proof.
  induction 1 as [|y l Hl IH Hy]; simpl; intros Hx.
  - repeat constructor.
  - inversion Hx; subst.
    constructor; [now apply IH|].
    apply Forall_app. split; [exact Hy | now repeat constructor].
Qed.

Lemma StronglySorted_rev (R : A -> A -> Prop) (l : list A) :
  StronglySorted R l -> StronglySorted (fun a b => R b a) (rev l).
Proof.
  induction 1 as [|y l Hl IH Hy]; simpl.
  - constructor.
  - apply StronglySorted_snoc; [exact IH|].
    apply Forall_rev. exact Hy.
Qed.

Lemma StronglySorted_split (R : A -> A -> Prop) (l1 l2 : list A) (x : A) :
  StronglySorted R (l1 ++ x :: l2) ->
  Forall (fun y => R y x) l1 /\ Forall (R x) l2.
Proof.
  induction l1 as [|y l1 IH]; simpl; intros H; inversion H; subst.
  - split; [constructor | assumption].
  - destruct (IH H2) as [H5 H6]. split; [|exact H6].
    constructor; [|exact H5].
    rewrite Forall_forall in H3. apply H3.
    apply in_or_app. right. now left.
Qed.

(** Insertion leaves the elements of each key in the order they had. *)
Lemma filter_insert (k : inactivity) (x : A) (l : list A) :
  filter (fun a => inactivity_eqb (key a) k) (insert key x l)
  = filter (fun a => inactivity_eqb (key a) k) (x :: l).
Proof.
  induction l as [|y l IH]; [reflexivity|].
  cbn [insert].
  destruct (inactivity_leb (key x) (key y)) eqn:E; [reflexivity|].
  cbn [filter] in *. rewrite IH.
  destruct (inactivity_eqb (key x) k) eqn:Ex;
    destruct (inactivity_eqb (key y) k) eqn:Ey; try reflexivity.
  apply inactivity_eqb_eq in Ex, Ey.
  rewrite Ex, Ey, inactivity_leb_refl in E. discriminate.
Qed.

Lemma filter_sort (k : inactivity) (l : list A) :
  filter (fun a => inactivity_eqb (key a) k) (sort key l)
  = filter (fun a => inactivity_eqb (key a) k) l.
Proof.
  induction l as [|x l IH]; [reflexivity|].
  cbn [sort]. rewrite filter_insert. cbn [filter]. now rewrite IH.
Qed.

Lemma filter_sort_reverse (k : inactivity) (l : list A) :
  filter (fun a => inactivity_eqb (key a) k) (sort_reverse key l)
  = filter (fun a => inactivity_eqb (key a) k) l.
Proof.
  unfold sort_reverse.
  rewrite filter_rev, filter_sort, filter_rev. apply rev_involutive.
Qed.

Lemma sort_reverse_perm (l : list A) : Permutation l (sort_reverse key l).
Proof.
  unfold sort_reverse.
  eapply perm_trans; [apply Permutation_rev|].
  eapply perm_trans; [apply sort_perm|]. apply Permutation_rev.
Qed.

Lemma sort_reverse_sorted (l : list A) :
  StronglySorted (fun a b => inactivity_leb (key b) (key a) = true)
    (sort_reverse key l).
Proof.
  unfold sort_reverse.
  apply (StronglySorted_rev (ascends key)). apply sort_ascending.
Qed.

End SortFacts.

Lemma StronglySorted_pair {A : Type} (R : A -> A -> Prop)
    (before between after : list A) (a b : A) :
  StronglySorted R (before ++ a :: between ++ b :: after) -> R a b.
Proof.
  intros H. apply StronglySorted_split in H. destruct H as [_ H].
  rewrite Forall_forall in H. apply H.
  apply in_or_app. right. now left.
Qed.

Lemma filter_within {A : Type} (p k : A -> bool) (l : list A) :
  (forall x, p x = true -> k x = true) ->
  filter p (filter k l) = filter p l.
Proof.
  intros Hpk. induction l as [|x l IH]; [reflexivity|]. cbn.
  destruct (k x) eqn:Hk; cbn; [now rewrite IH|].
  destruct (p x) eqn:Hp; [|exact IH].
  apply Hpk in Hp. congruence.
Qed.

(** C8. After the sort the rows are in descending order of their
    inactivity duration, the value under [inactivity_seconds] (a row
    without one counting as 0): of any two rows, the upper one has an
    infinite duration, or both have a number of seconds and the upper one
    has at least as many.  No row is lost or added, and the rows of any
    one duration are in the order they had before the sort. *)
Theorem sort_descending_and_stable (results : list Row.t) :
  let duration (r : Row.t) :=
    match Row.inactivity_seconds r with
    | Some v => v
    | None => Seconds 0
    end in
  Permutation results (sort_reverse sort_key results) /\
  (forall before upper between lower after,
     sort_reverse sort_key results
     = before ++ upper :: between ++ lower :: after ->
     match duration upper, duration lower with
     | Infinity, _ => True
     | Seconds p, Seconds q => q <= p
     | Seconds _, Infinity => False
     end) /\
  (forall v : inactivity,
     filter (fun r => inactivity_eqb (duration r) v)
            (sort_reverse sort_key results)
     = filter (fun r => inactivity_eqb (duration r) v) results) /\
  (forall v : inactivity,
     filter (fun r => match Row.inactivity_seconds r with
                      | Some x => inactivity_eqb x v
                      | None => false
                      end)
            (sort_reverse sort_key results)
     = filter (fun r => match Row.inactivity_seconds r with
                        | Some x => inactivity_eqb x v
                        | None => false
                        end)
              results).
Proof.
  intros duration.
  assert (Hstable : forall v : inactivity,
            filter (fun r => inactivity_eqb (duration r) v)
                   (sort_reverse sort_key results)
            = filter (fun r => inactivity_eqb (duration r) v) results).
  { intros v. apply (filter_sort_reverse sort_key v results). }
  split; [apply sort_reverse_perm|]. split; [|split; [exact Hstable|]].
  - intros before upper between lower after Hsorted.
    pose proof (sort_reverse_sorted sort_key results) as S.
    rewrite Hsorted in S. apply StronglySorted_pair in S.
    change (inactivity_leb (duration lower) (duration upper) = true) in S.
    destruct (duration upper) as [p|], (duration lower) as [q|];
      cbn in S; try exact I; [now apply Z.leb_le | discriminate].
  - intros v.
    rewrite <- (filter_within _ (fun r => inactivity_eqb (duration r) v)
                  (sort_reverse sort_key results)).
    + rewrite Hstable. apply filter_within.
      intros r Hr. unfold duration.
      now destruct (Row.inactivity_seconds r).
    + intros r Hr. unfold duration.
      now destruct (Row.inactivity_seconds r).
Qed.

Lemma sort_descending_and_stable_witness :
  let never :=
    merged Sample.bar
      (Activity.make "Bar" (NInt 0) "Never joined" None Infinity) in
  sort_reverse sort_key [Sample.failed; Sample.seen_recently; never]
  = [never] ++ Sample.seen_recently :: [] ++ Sample.failed :: [] /\
  0 <= 100.
Proof.
  intros never.
  assert (Hsorted :
    sort_reverse sort_key [Sample.failed; Sample.seen_recently; never]
    = [never] ++ Sample.seen_recently :: [] ++ Sample.failed :: [])
    by reflexivity.
  split; [exact Hsorted|].
  exact (proj1 (proj2 (sort_descending_and_stable
                         [Sample.failed; Sample.seen_recently; never]))
           [never] Sample.seen_recently [] Sample.failed [] Hsorted).
Defined.

(** C1, as the script behaves. The placeholder of a failed fetch has no
    inactivity value and is ranked with the key 0: in the sorted report
    every row above it has a key of at least 0 and every row below it a
    key of at most 0, so rows with a positive inactivity, finite or
    infinite, come first. *)
Theorem placeholder_ranked_as_zero (results before after : list Row.t)
    (m : Member.t) (e : exn) :
  sort_reverse sort_key results = before ++ placeholder m e :: after ->
  Row.inactivity_seconds (placeholder m e) = None /\
  sort_key (placeholder m e) = Seconds 0 /\
  Forall (fun r => inactivity_leb (Seconds 0) (sort_key r) = true) before /\
  Forall (fun r => inactivity_leb (sort_key r) (Seconds 0) = true) after.
Proof.
  intros H.
  pose proof (sort_reverse_sorted sort_key results) as S.
  rewrite H in S. apply StronglySorted_split in S.
  repeat split; [apply S | apply S].
Qed.

Lemma placeholder_ranked_as_zero_witness :
  sort_reverse sort_key [Sample.failed; Sample.seen_recently]
  = [Sample.seen_recently] ++ Sample.failed :: [] /\
  Forall (fun r => inactivity_leb (Seconds 0) (sort_key r) = true)
    [Sample.seen_recently].
Proof.
  assert (H : sort_reverse sort_key [Sample.failed; Sample.seen_recently]
              = [Sample.seen_recently]
                ++ placeholder Sample.bar
                     (Exn PlainException "Failed to fetch after 5 attempts: x")
                   :: []) by reflexivity.
  split; [exact H|].
  exact (proj1 (proj2 (proj2 (placeholder_ranked_as_zero _ _ _ _ _ H)))).
Defined.

(** C1, as the specification states it, fails: a placeholder placed
    first comes out of the sort below a row of finite inactivity, and it
    carries no infinity value. *)
Lemma placeholder_sorts_below_finite :
  sort_key Sample.failed <> Infinity /\
  Row.inactivity_seconds Sample.seen_recently = Some (Seconds 100) /\
  sort_reverse sort_key [Sample.failed; Sample.seen_recently]
  = [Sample.seen_recently; Sample.failed].
Proof.
  split; [discriminate|]. split; reflexivity.
Qed.

(** ** Safe request *)

Section SafeRequestFacts.

Variable w : World.
Variable url : string.

(** One pass of the loop body. *)
Lemma attempts_step (n : nat) (tr : list Event) :
  attempts w url (S n) tr =
  match http_get w (List.length tr) url with
  | Responded resp =>
      if attempt_failed (Responded resp)
      then attempts w url n (tr ++ retry_round url)
      else (Ok resp, tr ++ [EvGet url])
  | RequestFailed _ => attempts w url n (tr ++ retry_round url)
  end.
Proof.
  cbn [attempts]. unfold bind, clock, emit, ret, retry_round.
  destruct (http_get w (List.length tr) url) as [resp|why]; cbn.
  - destruct (status_code resp =? 429); cbn.
    + now rewrite <- app_assoc.
    + destruct (raises_for_status resp); cbn; [now rewrite <- app_assoc|].
      reflexivity.
  - now rewrite <- app_assoc.
Qed.

Lemma gets_in_rounds (k : nat) :
  List.length (filter is_get (retry_rounds url k)) = k.
Proof. induction k; simpl; congruence. Qed.

(** The loop with [n] attempts left: [failed] attempts fail, each
    followed by the cooldown, and then either an attempt succeeds or the
    attempts have run out. *)
Lemma attempts_spec (n : nat) :
  forall tr : list Event,
  exists failed : nat,
    (forall i, (i < failed)%nat ->
       attempt_failed (http_get w (List.length tr + 2 * i) url) = true) /\
    match attempts w url n tr with
    | (Ok resp, tr') =>
        (failed < n)%nat /\
        http_get w (List.length tr + 2 * failed) url = Responded resp /\
        attempt_failed (Responded resp) = false /\
        tr' = tr ++ retry_rounds url failed ++ [EvGet url]
    | (Raise e, tr') =>
        failed = n /\ e = exhausted url /\ tr' = tr ++ retry_rounds url n
    end.
Proof.
  induction n as [|n IH]; intros tr.
  - exists O. split; [intros i Hi; lia|].
    cbn. repeat split. now rewrite app_nil_r.
  - rewrite attempts_step.
    assert (Hretry :
      attempt_failed (http_get w (List.length tr) url) = true ->
      exists failed : nat,
        (forall i, (i < failed)%nat ->
           attempt_failed (http_get w (List.length tr + 2 * i) url) = true) /\
        match attempts w url n (tr ++ retry_round url) with
        | (Ok resp, tr') =>
            (failed < S n)%nat /\
            http_get w (List.length tr + 2 * failed) url = Responded resp /\
            attempt_failed (Responded resp) = false /\
            tr' = tr ++ retry_rounds url failed ++ [EvGet url]
        | (Raise e, tr') =>
            failed = S n /\ e = exhausted url /\
            tr' = tr ++ retry_rounds url (S n)
        end).
    { intros Hfail.
      destruct (IH (tr ++ retry_round url)) as [k [Hk Hres]].
      assert (Hlen : forall i, (List.length (tr ++ retry_round url) + 2 * i
                                = List.length tr + 2 * S i)%nat).
      { intros i. rewrite length_app. simpl. lia. }
      exists (S k). split.
      - intros [|i] Hi.
        + now rewrite Nat.mul_0_r, Nat.add_0_r.
        + rewrite <- Hlen. apply Hk. lia.
      - destruct (attempts w url n (tr ++ retry_round url)) as [[resp|e] tr'].
        + destruct Hres as (H1 & H2 & H3 & H4).
          rewrite Hlen in H2.
          repeat split; try assumption; [lia|].
          rewrite H4. cbn [retry_rounds]. now rewrite <- !app_assoc.
        + destruct Hres as (H1 & H2 & H3).
          repeat split; try assumption; [lia|].
          rewrite H3. cbn [retry_rounds]. now rewrite <- !app_assoc. }
    destruct (http_get w (List.length tr) url) as [resp|why] eqn:Hget.
    + destruct (attempt_failed (Responded resp)) eqn:Hfail.
      * now apply Hretry.
      * exists O. split; [intros i Hi; lia|].
        rewrite Nat.mul_0_r, Nat.add_0_r.
        repeat split; try assumption. lia.
    + now apply Hretry.
Qed.

End SafeRequestFacts.

(** C4. For every URL [safe_request] issues at most 5 requests.  Some
    number [failed] of attempts fail, by a 429 response, an error status
    or a request exception; each is followed by the cooldown of
    [RETRY_DELAY] seconds and uses up one attempt.  Either fewer than 5
    fail and the next response is returned, or all 5 fail and the call
    raises an exception whose message ends with the URL. *)
Theorem safe_request_bounded_retries (w : World) (url : string)
    (tr : list Event) :
  exists failed : nat,
    (forall i, (i < failed)%nat ->
       attempt_failed (http_get w (List.length tr + 2 * i) url) = true) /\
    (forall r, status_code r = 429 -> attempt_failed (Responded r) = true) /\
    match safe_request w url tr with
    | (Ok resp, tr') =>
        (failed < 5)%nat /\
        http_get w (List.length tr + 2 * failed) url = Responded resp /\
        attempt_failed (Responded resp) = false /\
        tr' = tr ++ retry_rounds url failed ++ [EvGet url] /\
        (List.length (filter is_get (retry_rounds url failed ++ [EvGet url]))
         <= 5)%nat
    | (Raise e, tr') =>
        failed = 5%nat /\
        exn_str e = ("Failed to fetch after 5 attempts: " ++ url)%string /\
        tr' = tr ++ retry_rounds url 5 /\
        List.length (filter is_get (retry_rounds url 5)) = 5%nat
    end.
Proof.
  destruct (attempts_spec w url MAX_RETRIES tr) as [failed [Hfailed Hres]].
  exists failed. split; [exact Hfailed|]. split.
  - intros r Hr. cbn. rewrite Hr. reflexivity.
  - unfold safe_request.
    destruct (attempts w url MAX_RETRIES tr) as [[resp|e] tr'].
    + destruct Hres as (H1 & H2 & H3 & H4).
      repeat split; try assumption.
      rewrite filter_app, length_app, gets_in_rounds. cbn.
      unfold MAX_RETRIES in H1. lia.
    + destruct Hres as (H1 & H2 & H3).
      repeat split; try assumption.
      now rewrite H2.
Qed.

Lemma safe_request_bounded_retries_witness :
  safe_request Sample.world (API_PLAYER_URL "u2") []
  = (Raise (exhausted (API_PLAYER_URL "u2")),
     retry_rounds (API_PLAYER_URL "u2") 5).
Proof.
  destruct (safe_request_bounded_retries Sample.world (API_PLAYER_URL "u2") [])
    as [failed [_ [_ H]]].
  destruct (safe_request Sample.world (API_PLAYER_URL "u2") [])
    as [[resp|e] tr'] eqn:E.
  - vm_compute in E. discriminate.
  - vm_compute in E. inversion E. reflexivity.
Defined.

(** C10, as the script behaves. A response that [safe_request] returns
    is the answer to its last request and has neither the status 429 nor
    a status from 400 to 599; a response that [raise_for_status] accepts
    is returned whatever its class. *)
Theorem safe_request_returns_accepted (w : World) (url : string)
    (tr tr' : list Event) (resp : Response) :
  safe_request w url tr = (Ok resp, tr') ->
  status_code resp <> 429 /\
  ~ (400 <= status_code resp < 600) /\
  exists failed : nat,
    (failed < 5)%nat /\
    http_get w (List.length tr + 2 * failed) url = Responded resp /\
    tr' = tr ++ retry_rounds url failed ++ [EvGet url].
Proof.
  intros H.
  destruct (attempts_spec w url MAX_RETRIES tr) as [failed [_ Hres]].
  unfold safe_request in H. rewrite H in Hres.
  destruct Hres as (H1 & H2 & H3 & H4).
  cbn in H3. apply orb_false_iff in H3. destruct H3 as [H3 H5].
  unfold raises_for_status in H5.
  split; [now apply Z.eqb_neq|]. split.
  - intros [Hlo Hhi].
    apply andb_false_iff in H5. destruct H5 as [H5|H5].
    + apply Z.leb_gt in H5. lia.
    + apply Z.ltb_ge in H5. lia.
  - exists failed. repeat split; assumption.
Qed.

Lemma safe_request_returns_accepted_witness :
  let resp := {| status_code := 200; body := GuildJson Sample.roster |} in
  status_code resp <> 429 /\
  ~ (400 <= status_code resp < 600) /\
  exists failed : nat,
    (failed < 5)%nat /\
    http_get Sample.world (0 + 2 * failed) (API_GUILD_URL Sample.cfg)
    = Responded resp /\
    [EvGet (API_GUILD_URL Sample.cfg)]
    = [] ++ retry_rounds (API_GUILD_URL Sample.cfg) failed
         ++ [EvGet (API_GUILD_URL Sample.cfg)].
Proof.
  refine (safe_request_returns_accepted Sample.world
            (API_GUILD_URL Sample.cfg) []
            [EvGet (API_GUILD_URL Sample.cfg)] _ _).
  reflexivity.
Defined.

(** C10, as the specification states it, fails: a 304 response is
    returned to the caller at the first attempt, and 304 is not a 2xx
    status. *)
Lemma safe_request_returns_304 :
  safe_request Sample.not_modified "https://example.org/x" []
  = (Ok {| status_code := 304; body := NotJson EmptyString |},
     [EvGet "https://example.org/x"]) /\
  ~ (200 <= 304 < 300).
Proof.
  split; [reflexivity | lia].
Qed.

(** ** Guild roster *)

Lemma add_players_spec (rank : string)
    (players : list (string * MemberInfo)) :
  forall members : list Member.t,
  exists new : list Member.t,
    add_players rank players members = members ++ new /\
    (rank <> "total"%string ->
     Forall2 member_of
       (map (fun '(name, info) => (rank, name, info))
            (filter (fun '(_, info) => has_identifier info) players))
       new).
Proof.
  induction players as [|[name info] players IH]; intros members.
  - exists []. split; [now rewrite app_nil_r | constructor].
  - cbn [add_players filter]. unfold has_identifier at 1.
    destruct (mi_uuid info) as [uuid|] eqn:Hu.
    + destruct (Py.falsy uuid) eqn:Hf; cbn [negb].
      * apply IH.
      * destruct (IH (members ++
                      [Member.make uuid name rank
                         (default 0 (mi_contributed info))
                         (default "Unknown"%string (mi_joined info))]))
          as [new [Hnew Hall]].
        eexists. split; [rewrite Hnew, <- app_assoc; reflexivity|].
        intros Hrank. cbn [map]. constructor; [|now apply Hall].
        cbn. repeat split; try assumption.
        intros Hq. rewrite Hq in Hf. discriminate.
    + apply IH.
Qed.

(** The two loops either make one member for each remaining entry, in
    order, or stop at a rank other than ["total"] that maps to a count;
    a missing or empty identifier never stops them. *)
Lemma add_ranks_spec (ranks : list (string * RankEntry)) :
  forall members : list Member.t,
    match add_ranks ranks members with
    | Ok all =>
        exists new : list Member.t,
          all = members ++ new /\ Forall2 member_of (remaining ranks) new
    | Raise _ =>
        exists rank n, In (rank, Count n) ranks /\ rank <> "total"%string
    end.
Proof.
  induction ranks as [|[rank entry] ranks IH]; intros members.
  - exists []. split; [now rewrite app_nil_r | constructor].
  - cbn [add_ranks remaining flat_map].
    destruct (String.eqb rank "total") eqn:Hrank.
    + specialize (IH members).
      destruct (add_ranks ranks members) as [all|e].
      * exact IH.
      * destruct IH as (r & n & Hin & Hr). exists r, n. split; [now right | exact Hr].
    + apply String.eqb_neq in Hrank.
      destruct entry as [n|players].
      * exists rank, n. split; [now left | exact Hrank].
      * destruct (add_players_spec rank players members) as [new1 [H1 H2]].
        rewrite H1. specialize (IH (members ++ new1)).
        destruct (add_ranks ranks (members ++ new1)) as [all|e].
        -- destruct IH as [new2 [H3 H4]].
           exists (new1 ++ new2). split; [now rewrite H3, app_assoc|].
           apply Forall2_app; [now apply H2 | exact H4].
        -- destruct IH as (r & n & Hin & Hr).
           exists r, n. split; [now right | exact Hr].
Qed.

(** C9. For every guild document that the guild endpoint answers with,
    having a name and, under ["members"], players under every rank other
    than ["total"], the roster loader returns one member for each entry
    that is under a rank other than ["total"] and has a non-empty player
    identifier, in document order: the member has the rank, name and
    identifier of the entry, its contribution count or 0 when the entry
    has none, and its join date or ["Unknown"] when the entry has none.
    The key ["total"] gives no member, and an entry without an identifier
    gives no member and no error. *)
Theorem roster_members (cfg : Config) (w : World) (tr tr' : list Event)
    (resp : Response) (data : GuildDoc) (ranks : list (string * RankEntry)) :
  safe_request w (API_GUILD_URL cfg) tr = (Ok resp, tr') ->
  json_guild resp = Ok data ->
  gd_members data = Some ranks ->
  gd_name data <> None ->
  (forall rank n, In (rank, Count n) ranks -> rank = "total"%string) ->
  exists members : list Member.t,
    fetch_guild_members cfg w tr = (Ok members, tr') /\
    Forall2 member_of (remaining ranks) members /\
    Forall (fun m => Member.rank m <> "total"%string) members /\
    List.length members = List.length (remaining ranks).
Proof.
  intros Hreq Hdata Hranks Hname Hshape.
  unfold fetch_guild_members, bind, lift, ret.
  rewrite Hreq, Hdata, Hranks. cbn [subscript].
  pose proof (add_ranks_spec ranks []) as Hspec.
  destruct (add_ranks ranks []) as [all|e].
  - destruct Hspec as [new [Hnew Hall]]. cbn in Hnew. subst new.
    destruct (gd_name data) as [name|]; [|congruence].
    exists all. split; [reflexivity|]. split; [exact Hall|]. split.
    + clear - Hall.
      induction Hall as [|[[rank name] info] m l l' Hm _ IH];
        constructor; [|exact IH].
      destruct Hm as (-> & Hr & _). exact Hr.
    + symmetry. eapply Forall2_length. exact Hall.
  - destruct Hspec as (rank & n & Hin & Hr).
    now apply Hshape in Hin.
Qed.

Lemma roster_members_witness :
  exists members : list Member.t,
    fetch_guild_members Sample.cfg Sample.world []
    = (Ok members, [EvGet (API_GUILD_URL Sample.cfg)]) /\
    Forall2 member_of (remaining Sample.ranks) members /\
    Forall (fun m => Member.rank m <> "total"%string) members /\
    List.length members = List.length (remaining Sample.ranks).
Proof.
  apply (roster_members Sample.cfg Sample.world []
           [EvGet (API_GUILD_URL Sample.cfg)]
           {| status_code := 200; body := GuildJson Sample.roster |}
           Sample.roster Sample.ranks).
  - reflexivity.
  - reflexivity.
  - reflexivity.
  - discriminate.
  - intros rank n Hin. cbn in Hin.
    destruct Hin as [Hin|[Hin|[Hin|[]]]]; inversion Hin. reflexivity.
Defined.

(** ** The loop over the members *)

Section CollectFacts.

Variable fromisoformat : string -> option datetime.
Variable w : World.

Lemma collect_spec (members : list Member.t) :
  forall (results : list Row.t) (tr : list Event),
  exists (rows : list Row.t) (tr' : list Event),
    collect fromisoformat w members results tr = (Ok (results ++ rows), tr') /\
    Forall2 (row_of fromisoformat w) members rows.
Proof.
  induction members as [|m members IH]; intros results tr.
  - exists [], tr. split; [cbn; now rewrite app_nil_r | constructor].
  - cbn [collect]. unfold bind at 1, try_except, bind at 1.
    destruct (fetch_player_info fromisoformat w (Member.uuid m) tr)
      as [[info|e] tr1] eqn:Hfetch; cbn [ret]; unfold emit, bind at 1.
    + destruct (IH (results ++ [merged m info]) (tr1 ++ [EvThrottle]))
        as (rows & tr' & Hrows & Hall).
      exists (merged m info :: rows), tr'. split.
      * rewrite Hrows, <- app_assoc. reflexivity.
      * constructor; [|exact Hall]. exists tr. now rewrite Hfetch.
    + destruct (IH (results ++ [placeholder m e]) (tr1 ++ [EvThrottle]))
        as (rows & tr' & Hrows & Hall).
      exists (placeholder m e :: rows), tr'. split.
      * rewrite Hrows, <- app_assoc. reflexivity.
      * constructor; [|exact Hall]. exists tr. now rewrite Hfetch.
Qed.

(** When every attempt on a URL fails, the attempts run out. *)
Lemma safe_request_exhausted (url : string) (tr : list Event) :
  (forall t, attempt_failed (http_get w t url) = true) ->
  safe_request w url tr = (Raise (exhausted url), tr ++ retry_rounds url 5).
Proof.
  intros Hall. unfold safe_request.
  destruct (attempts_spec w url MAX_RETRIES tr) as [failed [_ Hres]].
  destruct (attempts w url MAX_RETRIES tr) as [[resp|e] tr'].
  - destruct Hres as (_ & H2 & H3 & _).
    rewrite <- H2, Hall in H3. discriminate.
  - destruct Hres as (_ & -> & ->). reflexivity.
Qed.

End CollectFacts.

Section LoopFacts.

Variable fromisoformat : string -> option datetime.
Variable w : World.

(** An exception of [safe_request] is the one of the exhausted
    attempts. *)
Lemma safe_request_raises (url : string) (tr : list Event) (e : exn) :
  fst (safe_request w url tr) = Raise e -> e = exhausted url.
Proof.
  unfold safe_request.
  destruct (attempts_spec w url MAX_RETRIES tr) as [failed [_ H]].
  destruct (attempts w url MAX_RETRIES tr) as [[resp|e'] tr']; cbn [fst];
    intros He; [discriminate|].
  destruct H as (_ & -> & _). now inversion He.
Qed.

Lemma row_at_merged (m : Member.t) (tr tr1 : list Event) (info : Activity.t) :
  fetch_player_info fromisoformat w (Member.uuid m) tr = (Ok info, tr1) ->
  row_at fromisoformat w m tr (merged m info).
Proof.
  intros Hfetch. unfold row_at. rewrite Hfetch. cbn [fst].
  split; [reflexivity|]. split; [reflexivity|]. split; [reflexivity|].
  split; [reflexivity|].
  intros e He. exfalso. revert Hfetch.
  unfold fetch_player_info, bind.
  destruct (safe_request w (API_PLAYER_URL (Member.uuid m)) tr)
    as [[resp|e'] tr2]; cbn [fst] in He; discriminate.
Qed.

Lemma row_at_placeholder (m : Member.t) (tr tr1 : list Event) (e : exn) :
  fetch_player_info fromisoformat w (Member.uuid m) tr = (Raise e, tr1) ->
  row_at fromisoformat w m tr (placeholder m e).
Proof.
  intros Hfetch. unfold row_at. rewrite Hfetch. cbn [fst].
  assert (Hsafe : forall e',
            fst (safe_request w (API_PLAYER_URL (Member.uuid m)) tr) = Raise e' ->
            e = e' /\ e' = exhausted (API_PLAYER_URL (Member.uuid m))).
  { intros e' He'. split; [|now apply (safe_request_raises _ tr)].
    revert Hfetch. unfold fetch_player_info, bind.
    destruct (safe_request w (API_PLAYER_URL (Member.uuid m)) tr)
      as [[resp|e''] tr2]; cbn [fst] in He'; [discriminate|].
    inversion He'; subst e''. intros Hfetch. now inversion Hfetch. }
  split; [reflexivity|]. split; [reflexivity|]. split; [reflexivity|].
  split; [repeat split|].
  intros e' He'. destruct (Hsafe e' He') as [<- He].
  split; [reflexivity|]. cbn. now rewrite He.
Qed.

Lemma collect_loop (members : list Member.t) :
  forall (results : list Row.t) (tr : list Event),
  exists (rows : list Row.t) (tr' : list Event),
    collect fromisoformat w members results tr = (Ok (results ++ rows), tr') /\
    List.length rows = List.length members /\
    loop_rows fromisoformat w members tr rows tr'.
Proof.
  induction members as [|m members IH]; intros results tr.
  - exists [], tr. cbn. rewrite app_nil_r. repeat split.
  - cbn [collect]. unfold bind at 1, try_except, bind at 1.
    destruct (fetch_player_info fromisoformat w (Member.uuid m) tr)
      as [[info|e] tr1] eqn:Hfetch; cbn [ret]; unfold emit, bind at 1.
    + destruct (IH (results ++ [merged m info]) (tr1 ++ [EvThrottle]))
        as (rows & tr' & Hrows & Hlen & Hloop).
      exists (merged m info :: rows), tr'. split; [|split].
      * rewrite Hrows, <- app_assoc. reflexivity.
      * cbn. now rewrite Hlen.
      * cbn [loop_rows]. rewrite Hfetch. cbn [snd].
        split; [now apply (row_at_merged m tr tr1) | exact Hloop].
    + destruct (IH (results ++ [placeholder m e]) (tr1 ++ [EvThrottle]))
        as (rows & tr' & Hrows & Hlen & Hloop).
      exists (placeholder m e :: rows), tr'. split; [|split].
      * rewrite Hrows, <- app_assoc. reflexivity.
      * cbn. now rewrite Hlen.
      * cbn [loop_rows]. rewrite Hfetch. cbn [snd].
        split; [now apply (row_at_placeholder m tr tr1) | exact Hloop].
Qed.

End LoopFacts.

(** C3. The loop of [main] never raises and yields one row for each
    member, in order.  Each row has the identifier, in-guild name and
    rank of its member and comes from the fetch that the loop makes when
    it reaches the member: the merge with the fetched activity or, when
    that fetch raised [e], the placeholder with current name ["Error"],
    playtime 0, delta string ["Error: "] followed by [str(e)] and no
    inactivity value; when the attempts of that fetch run out, the delta
    string is ["Error: Failed to fetch after 5 attempts: "] followed by
    the URL.  After each member the loop pauses and goes on with the next
    one from the trace that the fetch left. *)
Theorem one_row_per_member (fromisoformat : string -> option datetime)
    (w : World) (members : list Member.t) (tr : list Event) :
  exists (rows : list Row.t) (tr' : list Event),
    collect fromisoformat w members [] tr = (Ok rows, tr') /\
    List.length rows = List.length members /\
    loop_rows fromisoformat w members tr rows tr'.
Proof.
  destruct (collect_loop fromisoformat w members [] tr)
    as (rows & tr' & Hrows & Hlen & Hloop).
  exists rows, tr'. split; [exact Hrows|]. split; [exact Hlen | exact Hloop].
Qed.

Lemma one_row_per_member_witness :
  exists (rows : list Row.t) (tr' : list Event),
    collect Iso.parse Sample.world [Sample.foo; Sample.bar] [] []
    = (Ok rows, tr') /\
    List.length rows = 2%nat /\
    nth_error rows 1
    = Some (placeholder Sample.bar (exhausted (API_PLAYER_URL "u2"))).
Proof.
  destruct (one_row_per_member Iso.parse Sample.world
              [Sample.foo; Sample.bar] [])
    as (rows & tr' & H1 & H2 & H3).
  exists rows, tr'. split; [exact H1|]. split; [exact H2|].
  destruct rows as [|r1 [|r2 rows]]; try discriminate H2.
  cbn [loop_rows] in H3. destruct H3 as (_ & (_ & _ & _ & _ & H3) & _).
  cbn [nth_error]. f_equal.
  apply (H3 (exhausted (API_PLAYER_URL "u2"))).
  vm_compute. reflexivity.
Defined.

(** ** The report file *)

Lemma append_length (s1 s2 : string) :
  String.length (s1 ++ s2)%string = (String.length s1 + String.length s2)%nat.
Proof. induction s1; simpl; congruence. Qed.

Lemma append_assoc (s1 s2 s3 : string) :
  ((s1 ++ s2) ++ s3 = s1 ++ (s2 ++ s3))%string.
Proof. induction s1; simpl; congruence. Qed.

Lemma repeat_char_length (c : ascii) (n : nat) :
  String.length (Py.repeat_char c n) = n.
Proof. induction n; simpl; congruence. Qed.

Lemma ljust_length (s : string) (width : nat) :
  String.length (Py.ljust s width) = Nat.max width (String.length s).
Proof.
  unfold Py.ljust. rewrite append_length, repeat_char_length. lia.
Qed.

Lemma rjust_length (s : string) (width : nat) :
  String.length (Py.rjust s width) = Nat.max width (String.length s).
Proof.
  unfold Py.rjust. rewrite append_length, repeat_char_length. lia.
Qed.






(** ** Elapsed seconds *)

Lemma round_half_even_bounds (n d : Z) :
  n / d <= Py.round_half_even n d <= n / d + 1 /\
  (Py.round_half_even n d = n / d + 1 -> d <= 2 * (n mod d)).
Proof.
  unfold Py.round_half_even.
  destruct (2 * (n mod d) <? d) eqn:E1; [lia|].
  apply Z.ltb_ge in E1.
  destruct (d <? 2 * (n mod d)); [lia|].
  destruct (Z.even (n / d)); lia.
Qed.

(** For fewer than [2^34] seconds, counted in microseconds, the float
    quotient has at least 19 binary digits after the point. *)
Lemma binade_of_microseconds (n : Z) :
  0 < n < 2 ^ 34 * 1000000 ->
  Py.binade n 1000000 <= -19 /\
  0 < (n * 2 ^ (- Py.binade n 1000000)) / 1000000.
Proof.
  intros [Hpos Hlt].
  assert (Hlog : 0 <= Z.log2 n <= 53).
  { split; [apply Z.log2_nonneg|].
    assert (Z.log2 n < 54); [|lia].
    apply Z.log2_lt_pow2; [exact Hpos|].
    change (2 ^ 54) with 18014398509481984.
    change (2 ^ 34) with 17179869184 in Hlt. lia. }
  pose proof (Z.log2_spec n Hpos) as [Hlow _].
  unfold Py.binade. change (Z.log2 1000000) with 19.
  set (L := Z.log2 n) in *.
  assert (Hscaled : forall e, e < 0 ->
            Py.scaled n 1000000 e = (n * 2 ^ (- e), 1000000)).
  { intros e He. unfold Py.scaled.
    destruct (0 <=? e) eqn:E; [apply Z.leb_le in E; lia | reflexivity]. }
  rewrite Hscaled by lia.
  assert (Hbig : forall k, 0 <= k -> 2 ^ 71 * 2 ^ k <= n * 2 ^ (71 - L + k)).
  { intros k Hk.
    replace (2 ^ 71) with (2 ^ L * 2 ^ (71 - L))
      by (rewrite <- Z.pow_add_r by lia; f_equal; lia).
    rewrite (Z.pow_add_r 2 (71 - L) k) by lia.
    assert (0 < 2 ^ (71 - L)) by (apply Z.pow_pos_nonneg; lia).
    assert (0 < 2 ^ k) by (apply Z.pow_pos_nonneg; lia).
    nia. }
  assert (Hdiv : forall k, 0 <= k ->
            0 < n * 2 ^ (71 - L + k) / 1000000).
  { intros k Hk. apply Z.div_str_pos. split; [lia|].
    specialize (Hbig k Hk).
    assert (1 <= 2 ^ k) by (pose proof (Z.pow_pos_nonneg 2 k); lia).
    change (2 ^ 71) with 2361183241434822606848 in Hbig. nia. }
  destruct (n * 2 ^ (- (L - 19 - 52)) / 1000000 <? 2 ^ 52) eqn:E.
  - split; [lia|].
    replace (- (L - 19 - 52 - 1)) with (71 - L + 1) by lia.
    apply Hdiv. lia.
  - split.
    + apply Z.ltb_ge in E.
      assert (L <= 52 \/ L = 53) as [HL|HL] by lia; [lia|].
      exfalso. rewrite HL in E. cbn in E.
      assert (n * 262144 / 1000000 < 4503599627370496); [|lia].
      apply Z.div_lt_upper_bound; [lia|].
      change (2 ^ 34) with 17179869184 in Hlt. lia.
    + replace (- (L - 19 - 52)) with (71 - L + 0) by lia.
      apply Hdiv. lia.
Qed.

(** Within [2^34] seconds, [int(delta.total_seconds())] is the exact
    quotient truncated toward zero. *)
Lemma int_of_quotient (t : Z) :
  Z.abs t < 2 ^ 34 * 1000000 ->
  exists x : spec_float,
    Py.true_divide t 1000000 = Some x /\
    Py.int_of_float x = Some (Z.quot t 1000000).
Proof.
  intros Hbound. unfold Py.true_divide.
  destruct (t =? 0) eqn:Ht.
  - apply Z.eqb_eq in Ht. subst t. eexists. split; reflexivity.
  - apply Z.eqb_neq in Ht.
    set (n := Z.abs t) in *.
    assert (Hn : 0 < n < 2 ^ 34 * 1000000) by (unfold n; lia).
    destruct (binade_of_microseconds n Hn) as [He Hq].
    set (e := Py.binade n 1000000) in *.
    unfold Py.scaled.
    destruct (0 <=? e) eqn:E; [apply Z.leb_le in E; lia|]. clear E.
    set (D := 2 ^ (- e)) in *.
    assert (HD : 524288 <= D).
    { change 524288 with (2 ^ 19). apply Z.pow_le_mono_r; lia. }
    destruct (round_half_even_bounds (n * D) 1000000) as [[Hlo Hhi] Hup].
    set (m := Py.round_half_even (n * D) 1000000) in *.
    rewrite (Z.pow_neg_r 2 e) by lia. rewrite Z.mul_0_r.
    change (2 ^ 1024 <=? 0) with false. cbn iota.
    eexists. split; [reflexivity|].
    cbn [Py.int_of_float].
    destruct (0 <=? e) eqn:E; [apply Z.leb_le in E; lia|]. clear E.
    rewrite Z2Pos.id by lia. fold D.
    assert (Hm : m / D = n / 1000000).
    { pose proof (Z.div_mod n 1000000 ltac:(lia)) as Hn1.
      pose proof (Z.mod_pos_bound n 1000000 ltac:(lia)) as Hn2.
      pose proof (Z.div_mod (n * D) 1000000 ltac:(lia)) as Hp1.
      pose proof (Z.mod_pos_bound (n * D) 1000000 ltac:(lia)) as Hp2.
      set (N := n / 1000000) in *. set (r := n mod 1000000) in *.
      set (qf := n * D / 1000000) in *. set (rf := (n * D) mod 1000000) in *.
      assert (N * D <= m) by nia.
      assert (m < (N + 1) * D).
      { assert (m = qf \/ m = qf + 1) as [Hc|Hc] by lia.
        - nia.
        - specialize (Hup Hc). nia. }
      symmetry. apply Z.div_unique with (r := m - N * D); lia. }
    rewrite Hm. f_equal.
    destruct (t <? 0) eqn:Es.
    + apply Z.ltb_lt in Es.
      replace t with (- n) by (unfold n; lia).
      rewrite Z.quot_opp_l by lia.
      rewrite Z.quot_div_nonneg by lia. reflexivity.
    + apply Z.ltb_ge in Es.
      replace t with n by (unfold n; lia).
      now rewrite Z.quot_div_nonneg by lia.
Qed.

(** ** Player activity *)

Lemma falsy_false (s : string) : s <> EmptyString -> Py.falsy s = false.
Proof. destruct s; [congruence | reflexivity]. Qed.

(** The three fields of a [timedelta] add up to the microseconds it was
    made from. *)
Lemma total_seconds_of_us (t : Z) :
  total_seconds (timedelta_of_us t) = Py.true_divide t 1000000.
Proof.
  unfold total_seconds, timedelta_of_us. cbn [days seconds microseconds].
  f_equal. Z.div_mod_to_equations. lia.
Qed.

(** C6, as the script behaves. Without a last-login timestamp, or with
    an empty one, the activity says ["Never joined"], has no last-login
    instant and has the infinity value for its inactivity; with a
    non-empty timestamp that does not parse once each ["Z"] is replaced by
    ["+00:00"], it is the same record with ["Invalid date"]. *)
Theorem activity_without_login (fromisoformat : string -> option datetime)
    (uuid : string) (data : ProfileDoc) (now_us : Z) :
  let name := default uuid (pd_username data) in
  let playtime := default (NInt 0) (pd_playtime data) in
  (pd_lastJoin data = None \/ pd_lastJoin data = Some EmptyString ->
   activity_of fromisoformat uuid data now_us
   = Ok (Activity.make name playtime "Never joined" None Infinity)) /\
  (forall s : string,
     pd_lastJoin data = Some s -> s <> EmptyString ->
     fromisoformat (Py.replace_Z s) = None ->
     activity_of fromisoformat uuid data now_us
     = Ok (Activity.make name playtime "Invalid date" None Infinity)).
Proof.
  cbn zeta. unfold activity_of. split.
  - intros [H|H]; rewrite H; reflexivity.
  - intros s Hs Hne Hparse.
    rewrite Hs, (falsy_false s Hne), Hparse. reflexivity.
Qed.

Lemma activity_without_login_witness :
  activity_of Iso.parse "u3" Sample.baz_profile Sample.now
  = Ok (Activity.make "u3" (NInt 0) "Never joined" None Infinity) /\
  activity_of Iso.parse "u1"
    {| pd_username := Some "FooBar"%string; pd_playtime := None;
       pd_lastJoin := Some "yesterday"%string |} Sample.now
  = Ok (Activity.make "FooBar" (NInt 0) "Invalid date" None Infinity).
Proof.
  split.
  - apply (proj1 (activity_without_login Iso.parse "u3" Sample.baz_profile
                    Sample.now)).
    left. reflexivity.
  - apply (proj2 (activity_without_login Iso.parse "u1"
                    {| pd_username := Some "FooBar"%string;
                       pd_playtime := None;
                       pd_lastJoin := Some "yesterday"%string |}
                    Sample.now) "yesterday"%string).
    + reflexivity.
    + discriminate.
    + reflexivity.
Defined.

(** C6, as the specification states it, fails: an empty timestamp is
    present and does not parse, and the activity says ["Never joined"],
    not ["Invalid date"]. *)
Lemma empty_login_is_never_joined :
  let data := {| pd_username := Some "FooBar"%string; pd_playtime := None;
                 pd_lastJoin := Some EmptyString |} in
  pd_lastJoin data <> None /\
  Iso.parse (Py.replace_Z EmptyString) = None /\
  activity_of Iso.parse "u1" data Sample.now
  = Ok (Activity.make "FooBar" (NInt 0) "Never joined" None Infinity) /\
  activity_of Iso.parse "u1" data Sample.now
  <> Ok (Activity.make "FooBar" (NInt 0) "Invalid date" None Infinity).
Proof.
  cbn zeta. repeat split; discriminate.
Qed.

(** For fewer than [2^71] microseconds the float quotient has at least
    one binary digit after the point. *)
Lemma binade_of_calendar (n : Z) :
  0 < n < 2 ^ 71 ->
  Py.binade n 1000000 <= -1 /\
  0 < (n * 2 ^ (- Py.binade n 1000000)) / 1000000.
Proof.
  intros [Hpos Hlt].
  assert (Hlog : 0 <= Z.log2 n <= 70).
  { split; [apply Z.log2_nonneg|].
    assert (Z.log2 n < 71); [|lia].
    now apply Z.log2_lt_pow2. }
  pose proof (Z.log2_spec n Hpos) as [Hlow _].
  unfold Py.binade. change (Z.log2 1000000) with 19.
  set (L := Z.log2 n) in *.
  assert (Hscaled : forall e, e < 0 ->
            Py.scaled n 1000000 e = (n * 2 ^ (- e), 1000000)).
  { intros e He. unfold Py.scaled.
    destruct (0 <=? e) eqn:E; [apply Z.leb_le in E; lia | reflexivity]. }
  rewrite Hscaled by lia.
  assert (Hdiv : forall k, 0 <= k ->
            0 < n * 2 ^ (71 - L + k) / 1000000).
  { intros k Hk. apply Z.div_str_pos. split; [lia|].
    assert (H71 : 2 ^ 71 = 2 ^ L * 2 ^ (71 - L))
      by (rewrite <- Z.pow_add_r by lia; f_equal; lia).
    rewrite (Z.pow_add_r 2 (71 - L) k) by lia.
    assert (0 < 2 ^ (71 - L)) by (apply Z.pow_pos_nonneg; lia).
    assert (1 <= 2 ^ k) by (pose proof (Z.pow_pos_nonneg 2 k); lia).
    assert (2 ^ 71 <= n * 2 ^ (71 - L)) by (rewrite H71; nia).
    change (2 ^ 71) with 2361183241434822606848 in *. nia. }
  destruct (n * 2 ^ (- (L - 19 - 52)) / 1000000 <? 2 ^ 52).
  - split; [lia|].
    replace (- (L - 19 - 52 - 1)) with (71 - L + 1) by lia.
    apply Hdiv. lia.
  - split; [lia|].
    replace (- (L - 19 - 52)) with (71 - L + 0) by lia.
    apply Hdiv. lia.
Qed.

(** Within [2^71] microseconds, [int(delta.total_seconds())] is the
    exact quotient truncated toward zero, or one more in magnitude. *)
Lemma int_of_quotient_near (t : Z) :
  Z.abs t < 2 ^ 71 ->
  exists (x : spec_float) (q : Z),
    Py.true_divide t 1000000 = Some x /\
    Py.int_of_float x = Some q /\
    (q = Z.quot t 1000000 \/ q = Z.quot t 1000000 + Z.sgn t).
Proof.
  intros Hbound. unfold Py.true_divide.
  destruct (t =? 0) eqn:Ht.
  - apply Z.eqb_eq in Ht. subst t. eexists. exists 0.
    split; [reflexivity|]. split; [reflexivity | now left].
  - apply Z.eqb_neq in Ht.
    set (n := Z.abs t) in *.
    assert (Hn : 0 < n < 2 ^ 71) by (unfold n; lia).
    destruct (binade_of_calendar n Hn) as [He Hq].
    set (e := Py.binade n 1000000) in *.
    unfold Py.scaled.
    destruct (0 <=? e) eqn:E; [apply Z.leb_le in E; lia|]. clear E.
    set (D := 2 ^ (- e)) in *.
    assert (HD : 0 < D) by (apply Z.pow_pos_nonneg; lia).
    destruct (round_half_even_bounds (n * D) 1000000) as [[Hlo Hhi] _].
    set (m := Py.round_half_even (n * D) 1000000) in *.
    rewrite (Z.pow_neg_r 2 e) by lia. rewrite Z.mul_0_r.
    change (2 ^ 1024 <=? 0) with false. cbn iota.
    eexists. exists (if t <? 0 then - (m / D) else m / D).
    split; [reflexivity|]. split.
    + cbn [Py.int_of_float].
      destruct (0 <=? e) eqn:E; [apply Z.leb_le in E; lia|].
      rewrite Z2Pos.id by lia. reflexivity.
    + assert (Hm : m / D = n / 1000000 \/ m / D = n / 1000000 + 1).
      { pose proof (Z.div_mod n 1000000 ltac:(lia)) as Hn1.
        pose proof (Z.mod_pos_bound n 1000000 ltac:(lia)) as Hn2.
        pose proof (Z.div_mod (n * D) 1000000 ltac:(lia)) as Hp1.
        pose proof (Z.mod_pos_bound (n * D) 1000000 ltac:(lia)) as Hp2.
        set (N := n / 1000000) in *. set (r := n mod 1000000) in *.
        set (qf := n * D / 1000000) in *.
        set (rf := (n * D) mod 1000000) in *.
        assert (N * D <= m) by nia.
        assert (m <= (N + 1) * D) by nia.
        assert (Hcase : m < (N + 1) * D \/ m = (N + 1) * D) by lia.
        destruct Hcase as [Hlt| ->].
        - left. symmetry. apply Z.div_unique with (r := m - N * D); lia.
        - right. now rewrite Z.div_mul by lia. }
      destruct (t <? 0) eqn:Es.
      * apply Z.ltb_lt in Es.
        replace t with (- n) by (unfold n; lia).
        rewrite Z.quot_opp_l by lia.
        rewrite Z.quot_div_nonneg by lia.
        rewrite Z.sgn_neg by lia. lia.
      * apply Z.ltb_ge in Es.
        replace t with n by (unfold n; lia).
        rewrite Z.quot_div_nonneg by lia.
        rewrite Z.sgn_pos by lia. lia.
Qed.

(** C7, as the script behaves. For every timestamp that parses to an
    aware instant, the delta string of the activity gives the whole days
    of the elapsed time, then the hours and minutes of the remainder, with
    the hours from 0 to 23 and the minutes from 0 to 59; the record is
    made for any two instants less than [2^71] microseconds apart, as any
    two datetimes are.  Its inactivity is the elapsed time in seconds
    truncated toward zero when the instants are less than [2^34] seconds
    (about 544 years) apart, and that value or one second more in
    magnitude beyond. *)
Theorem activity_of_parsed_login (fromisoformat : string -> option datetime)
    (uuid : string) (data : ProfileDoc) (now_us : Z)
    (s : string) (dt : datetime) (off : Z) :
  pd_lastJoin data = Some s -> s <> EmptyString ->
  fromisoformat (Py.replace_Z s) = Some dt ->
  utcoffset dt = Some off ->
  let elapsed := now_us - (wall_us dt - off) in
  let whole_days := elapsed / 86400000000 in
  let rest := (elapsed - whole_days * 86400000000) / 1000000 in
  let hours := rest / 3600 in
  let minutes := (rest - hours * 3600) / 60 in
  let delta_str :=
    (Py.str_of_int whole_days ++ "d " ++ Py.str_of_int hours ++ "h "
     ++ Py.str_of_int minutes ++ "m ago")%string in
  let record (secs : Z) :=
    Activity.make (default uuid (pd_username data))
      (default (NInt 0) (pd_playtime data)) delta_str (Some dt)
      (Seconds secs) in
  (0 <= rest < 86400 /\ 0 <= hours < 24 /\ 0 <= minutes < 60) /\
  (forall act,
     activity_of fromisoformat uuid data now_us = Ok act ->
     exists secs, act = record secs) /\
  (Z.abs elapsed < 2 ^ 71 ->
   exists secs,
     activity_of fromisoformat uuid data now_us = Ok (record secs) /\
     (secs = Z.quot elapsed 1000000 \/
      secs = Z.quot elapsed 1000000 + Z.sgn elapsed)) /\
  (Z.abs elapsed < 2 ^ 34 * 1000000 ->
   activity_of fromisoformat uuid data now_us
   = Ok (record (Z.quot elapsed 1000000))).
Proof.
  intros Hs Hne Hparse Hoff elapsed whole_days rest hours minutes
    delta_str record.
  assert (Hrest : (elapsed mod 86400000000) / 1000000 = rest).
  { unfold rest, whole_days. f_equal. Z.div_mod_to_equations. lia. }
  assert (Hmin : (rest mod 3600) / 60 = minutes).
  { unfold minutes, hours. f_equal. Z.div_mod_to_equations. lia. }
  assert (Hact :
    activity_of fromisoformat uuid data now_us
    = match int_total_seconds (timedelta_of_us elapsed) with
      | Ok secs => Ok (record secs)
      | Raise e => Raise e
      end).
  { unfold activity_of, subtract.
    rewrite Hs, (falsy_false s Hne), Hparse, Hoff. fold elapsed.
    destruct (int_total_seconds (timedelta_of_us elapsed)) as [secs|e];
      [|reflexivity].
    unfold timedelta_of_us. cbn [days seconds].
    rewrite Hrest, Hmin. reflexivity. }
  split; [|split; [|split]].
  - unfold minutes, hours, rest, whole_days.
    Z.div_mod_to_equations. lia.
  - intros act Hok. rewrite Hact in Hok.
    destruct (int_total_seconds (timedelta_of_us elapsed)) as [secs|e];
      [|discriminate].
    exists secs. now inversion Hok.
  - intros Hbound. rewrite Hact.
    unfold int_total_seconds. rewrite total_seconds_of_us.
    destruct (int_of_quotient_near elapsed Hbound) as (x & q & Hx & Hint & Hq).
    rewrite Hx, Hint. exists q. split; [reflexivity | exact Hq].
  - intros Hbound. rewrite Hact.
    unfold int_total_seconds. rewrite total_seconds_of_us.
    destruct (int_of_quotient elapsed Hbound) as [x [Hx Hint]].
    now rewrite Hx, Hint.
Qed.

Lemma activity_of_parsed_login_witness :
  activity_of Iso.parse "u1" Sample.foo_profile Sample.now
  = Ok (Activity.make "FooBar" (NFloat Sample.twelve_and_a_half)
          "2d 13h 39m ago"
          (Some {| wall_us := Iso.instant 2026 11 1 10 20 30 500000;
                   utcoffset := Some 0 |})
          (Seconds 221969)).
Proof.
  refine (proj2 (proj2 (proj2
            (activity_of_parsed_login Iso.parse "u1" Sample.foo_profile
               Sample.now "2026-11-01T10:20:30.500Z"
               {| wall_us := Iso.instant 2026 11 1 10 20 30 500000;
                  utcoffset := Some 0 |} 0 _ _ _ _))) _).
  - reflexivity.
  - discriminate.
  - reflexivity.
  - reflexivity.
  - vm_compute. reflexivity.
Defined.

(** C7, as the specification states it, fails twice.  A timestamp
    without an offset parses to a naive instant, the subtraction raises,
    and there is no activity record.  A timestamp of the year 1000 is
    32403974399.999999 seconds before [Sample.now]; the float nearest to
    that is 32403974400.0, and the inactivity is 32403974400, not the
    truncated 32403974399. *)
Lemma parsed_login_not_truncated :
  (Iso.parse (Py.replace_Z "2024-01-01T00:00:00")
   = Some {| wall_us := Iso.instant 2024 1 1 0 0 0 0; utcoffset := None |} /\
   activity_of Iso.parse "u1"
     {| pd_username := None; pd_playtime := None;
        pd_lastJoin := Some "2024-01-01T00:00:00"%string |} Sample.now
   = Raise (Exn TypeError
              "can't subtract offset-naive and offset-aware datetimes")) /\
  (Iso.parse (Py.replace_Z "1000-01-01T00:00:00.000001Z")
   = Some {| wall_us := Iso.instant 1000 1 1 0 0 0 1; utcoffset := Some 0 |} /\
   Sample.now - Iso.instant 1000 1 1 0 0 0 1 = 32403974399999999 /\
   Z.quot 32403974399999999 1000000 = 32403974399 /\
   activity_of Iso.parse "u1"
     {| pd_username := None; pd_playtime := None;
        pd_lastJoin := Some "1000-01-01T00:00:00.000001Z"%string |} Sample.now
   = Ok (Activity.make "u1" (NInt 0) "375045d 23h 59m ago"
           (Some {| wall_us := Iso.instant 1000 1 1 0 0 0 1;
                    utcoffset := Some 0 |})
           (Seconds 32403974400))).
Proof.
  repeat split; vm_compute; reflexivity.
Qed.

(** ** The whole run *)

Section RunFacts.

Variable fromisoformat : string -> option datetime.
Variable w : World.

Lemma continues_refl (tr : list Event) : continues_without_post tr tr.
Proof. exists []. split; [now rewrite app_nil_r | reflexivity]. Qed.

Lemma continues_trans (tr1 tr2 tr3 : list Event) :
  continues_without_post tr1 tr2 -> continues_without_post tr2 tr3 ->
  continues_without_post tr1 tr3.
Proof.
  intros [e1 [-> H1]] [e2 [-> H2]]. exists (e1 ++ e2).
  split; [now rewrite app_assoc|].
  now rewrite filter_app, H1, H2.
Qed.

Lemma continues_emit (tr : list Event) (ev : Event) :
  is_post ev = false -> continues_without_post tr (tr ++ [ev]).
Proof. intros H. exists [ev]. split; [reflexivity | cbn; now rewrite H]. Qed.

Lemma posts_in_rounds (url : string) (k : nat) :
  filter is_post (retry_rounds url k) = [].
Proof. induction k; simpl; congruence. Qed.

Lemma safe_request_quiet (url : string) (tr : list Event) :
  continues_without_post tr (snd (safe_request w url tr)).
Proof.
  unfold safe_request.
  destruct (attempts_spec w url MAX_RETRIES tr) as [failed [_ H]].
  destruct (attempts w url MAX_RETRIES tr) as [[resp|e] tr']; cbn [snd].
  - destruct H as (_ & _ & _ & ->). eexists. split; [reflexivity|].
    now rewrite filter_app, posts_in_rounds.
  - destruct H as (_ & _ & ->). eexists. split; [reflexivity|].
    apply posts_in_rounds.
Qed.

Lemma fetch_guild_members_quiet (cfg : Config) (tr : list Event) :
  continues_without_post tr (snd (fetch_guild_members cfg w tr)).
Proof.
  pose proof (safe_request_quiet (API_GUILD_URL cfg) tr) as H.
  unfold fetch_guild_members, bind, lift, ret.
  destruct (safe_request w (API_GUILD_URL cfg) tr) as [[resp|e] tr1];
    [|exact H].
  destruct (json_guild resp) as [data|e]; [|exact H].
  destruct (subscript "members" (gd_members data)) as [ranks|e]; [|exact H].
  destruct (add_ranks ranks []) as [members|e]; [|exact H].
  destruct (subscript "name" (gd_name data)); exact H.
Qed.

Lemma fetch_player_info_quiet (uuid : string) (tr : list Event) :
  continues_without_post tr (snd (fetch_player_info fromisoformat w uuid tr)).
Proof.
  pose proof (safe_request_quiet (API_PLAYER_URL uuid) tr) as H.
  unfold fetch_player_info, bind, lift, clock.
  destruct (safe_request w (API_PLAYER_URL uuid) tr) as [[resp|e] tr1];
    [|exact H].
  destruct (json_profile resp) as [data|e]; exact H.
Qed.

Lemma collect_quiet (members : list Member.t) :
  forall (results : list Row.t) (tr : list Event),
    continues_without_post tr
      (snd (collect fromisoformat w members results tr)).
Proof.
  induction members as [|m members IH]; intros results tr.
  - apply continues_refl.
  - cbn [collect]. unfold bind at 1, try_except, bind at 1.
    pose proof (fetch_player_info_quiet (Member.uuid m) tr) as H.
    destruct (fetch_player_info fromisoformat w (Member.uuid m) tr)
      as [[info|e] tr1]; cbn [ret snd] in *; unfold emit, bind at 1;
      (eapply continues_trans; [exact H|]);
      (eapply continues_trans; [apply (continues_emit tr1 EvThrottle eq_refl)|]);
      apply IH.
Qed.

Lemma write_report_spec (cfg : Config) (results : list Row.t)
    (tr : list Event) :
  exists content : string,
    snd (write_report cfg w results tr) = tr ++ [EvWrite OUTPUT_FILE content].
Proof.
  unfold write_report, bind, clock, emit.
  destruct (write_rows results
              (report_head cfg (local_stamp w (List.length tr))))
    as [content [e|]]; exists content; reflexivity.
Qed.

(** The report phase uploads nothing, and when it does not raise its
    last effect is the report file. *)
Lemma report_spec (cfg : Config) :
  continues_without_post [] (snd (report fromisoformat cfg w [])) /\
  (forall u tr, report fromisoformat cfg w [] = (Ok u, tr) ->
     exists tr0 content, tr = tr0 ++ [EvWrite OUTPUT_FILE content]).
Proof.
  unfold report, bind.
  pose proof (fetch_guild_members_quiet cfg []) as H1.
  destruct (fetch_guild_members cfg w []) as [[members|e] tr1];
    cbn [snd] in H1;
    [|split; [exact H1 | intros u tr Hx; discriminate Hx]].
  pose proof (collect_quiet members [] tr1) as H2.
  destruct (collect fromisoformat w members [] tr1) as [[results|e] tr2];
    cbn [snd] in H2;
    [|split; [eapply continues_trans; eassumption
             | intros u tr Hx; discriminate Hx]].
  destruct (write_report_spec cfg (sort_reverse sort_key results) tr2)
    as [content Hw].
  split.
  - eapply continues_trans; [exact H1|].
    eapply continues_trans; [exact H2|].
    rewrite Hw. now apply continues_emit.
  - intros u tr Hrun. rewrite Hrun in Hw. cbn [snd] in Hw.
    now exists tr2, content.
Qed.

(** [main] is the report phase followed by the webhook step. *)
Lemma main_after_report (cfg : Config) (tr : list Event) :
  main fromisoformat cfg w tr
  = bind (report fromisoformat cfg w)
      (fun _ =>
         t <- clock ;;
         send_webhook_file cfg w OUTPUT_FILE
           (Some ("Guild report for `" ++ GUILD_PREFIX cfg
                  ++ "` generated at " ++ local_stamp w t ++ " UTC")%string))
      tr.
Proof.
  unfold main, report, bind.
  destruct (fetch_guild_members cfg w tr) as [[members|e] tr1];
    [|reflexivity].
  destruct (collect fromisoformat w members [] tr1) as [[results|e] tr2];
    [|reflexivity].
  destruct (write_report cfg w (sort_reverse sort_key results) tr2)
    as [[u|e] tr3]; reflexivity.
Qed.

End RunFacts.

(** C2, as the script behaves. When the variable [WEBHOOK_URL] is not
    set the process exits with status 1 before any request and writes no
    report.  When it is set to the empty string, and [GUILD_PREFIX] is
    set, the run uploads nothing; if the report phase does not raise, the
    report file is written as the last effect of the run and the exit
    status is 0, and if it raises the exit status is 1. *)
Theorem run_without_webhook (fromisoformat : string -> option datetime)
    (env : environ) (w : World) :
  (getenv env "WEBHOOK_URL" = None -> run fromisoformat env w = (1, [])) /\
  (forall prefix : string,
     getenv env "GUILD_PREFIX" = Some prefix ->
     getenv env "WEBHOOK_URL" = Some EmptyString ->
     let cfg := {| GUILD_PREFIX := prefix; WEBHOOK_URL := EmptyString |} in
     filter is_post (snd (run fromisoformat env w)) = [] /\
     match report fromisoformat cfg w [] with
     | (Ok _, tr) =>
         run fromisoformat env w = (0, tr) /\
         exists tr0 content, tr = tr0 ++ [EvWrite OUTPUT_FILE content]
     | (Raise _, tr) => run fromisoformat env w = (1, tr)
     end).
Proof.
  split.
  - intros H. unfold run, load_config. rewrite H.
    now destruct (getenv env "GUILD_PREFIX").
  - intros prefix Hp Hu cfg.
    assert (Hrun : run fromisoformat env w =
                   match report fromisoformat cfg w [] with
                   | (Ok _, tr) => (0, tr)
                   | (Raise _, tr) => (1, tr)
                   end).
    { unfold run, load_config. rewrite Hp, Hu. fold cfg.
      rewrite main_after_report. unfold bind at 1.
      destruct (report fromisoformat cfg w []) as [[u|e] tr]; reflexivity. }
    destruct (report_spec fromisoformat w cfg) as [Hquiet Hlast].
    rewrite Hrun.
    destruct (report fromisoformat cfg w []) as [[u|e] tr] eqn:Hreport;
      cbn [snd] in *.
    + destruct Hquiet as [ext [-> Hext]]. cbn [app].
      split; [exact Hext|]. split; [reflexivity|].
      exact (Hlast u _ eq_refl).
    + destruct Hquiet as [ext [-> Hext]]. cbn [app].
      split; [exact Hext | reflexivity].
Qed.

Lemma run_without_webhook_witness :
  filter is_post (snd (run Iso.parse Sample.env Sample.world)) = [] /\
  fst (run Iso.parse Sample.env Sample.world) = 0 /\
  exists tr0 content,
    snd (run Iso.parse Sample.env Sample.world)
    = tr0 ++ [EvWrite OUTPUT_FILE content].
Proof.
  destruct (proj2 (run_without_webhook Iso.parse Sample.env Sample.world)
              "ABC"%string eq_refl eq_refl) as [H1 H2].
  split; [exact H1|].
  assert (Hreport :
    fst (report Iso.parse
           {| GUILD_PREFIX := "ABC"; WEBHOOK_URL := EmptyString |}
           Sample.world []) = Ok tt) by (vm_compute; reflexivity).
  destruct (report Iso.parse
              {| GUILD_PREFIX := "ABC"; WEBHOOK_URL := EmptyString |} Sample.world [])
    as [[u|e] tr].
  - destruct H2 as [H2 H3]. rewrite H2. split; [reflexivity | exact H3].
  - discriminate Hreport.
Defined.

(** C2, as the specification states it, fails: with [WEBHOOK_URL] unset
    the process exits with status 1 and has written no report file. *)
Lemma unset_webhook_exits_1 :
  getenv Sample.env_without_webhook "WEBHOOK_URL" = None /\
  run Iso.parse Sample.env_without_webhook Sample.world = (1, []).
Proof.
  split; reflexivity.
Qed.

(** * Further properties *)

(** ** Safe request, from the answers of the world *)

(** The loop with more attempts left than attempts that fail. *)
Lemma attempts_recover (w : World) (url : string) (resp : Response)
    (k : nat) :
  forall (n : nat) (tr : list Event),
    (k < n)%nat ->
    (forall i, (i < k)%nat ->
       attempt_failed (http_get w (List.length tr + 2 * i) url) = true) ->
    http_get w (List.length tr + 2 * k) url = Responded resp ->
    attempt_failed (Responded resp) = false ->
    attempts w url n tr = (Ok resp, tr ++ retry_rounds url k ++ [EvGet url]).
Proof.
  induction k as [|k IH]; intros n tr Hn Hfail Hget Hok.
  - destruct n as [|n]; [lia|].
    rewrite attempts_step.
    rewrite Nat.mul_0_r, Nat.add_0_r in Hget. rewrite Hget, Hok.
    reflexivity.
  - destruct n as [|n]; [lia|].
    rewrite attempts_step.
    assert (Hlen : forall i, (List.length (tr ++ retry_round url) + 2 * i
                              = List.length tr + 2 * S i)%nat).
    { intros i. rewrite length_app. simpl. lia. }
    assert (Hnext : attempts w url n (tr ++ retry_round url)
                    = (Ok resp, tr ++ retry_rounds url (S k) ++ [EvGet url])).
    { rewrite (IH n (tr ++ retry_round url)).
      - cbn [retry_rounds]. now rewrite <- !app_assoc.
      - lia.
      - intros i Hi. rewrite Hlen. apply Hfail. lia.
      - now rewrite Hlen.
      - exact Hok. }
    pose proof (Hfail O ltac:(lia)) as H0.
    rewrite Nat.mul_0_r, Nat.add_0_r in H0.
    destruct (http_get w (List.length tr) url) as [r|why].
    + rewrite H0. exact Hnext.
    + exact Hnext.
Qed.

(** X1. When the first [k] attempts on a URL fail, with [k] below 5, and
    the next one is answered with a status that is neither 429 nor from
    400 to 599, [safe_request] returns that answer after exactly [k]
    cooldowns and [k + 1] requests; no further request is made. *)
Theorem safe_request_recovers (w : World) (url : string) (tr : list Event)
    (k : nat) (resp : Response) :
  (k < 5)%nat ->
  (forall i, (i < k)%nat ->
     attempt_failed (http_get w (List.length tr + 2 * i) url) = true) ->
  http_get w (List.length tr + 2 * k) url = Responded resp ->
  status_code resp <> 429 ->
  ~ (400 <= status_code resp < 600) ->
  safe_request w url tr = (Ok resp, tr ++ retry_rounds url k ++ [EvGet url]).
Proof.
  intros Hk Hfail Hget H429 Hstatus.
  apply attempts_recover; try assumption.
  cbn. apply orb_false_iff. split; [now apply Z.eqb_neq|].
  unfold raises_for_status. apply andb_false_iff.
  destruct (400 <=? status_code resp) eqn:E1; [right | now left].
  apply Z.leb_le in E1. apply Z.ltb_ge. lia.
Qed.

Lemma safe_request_recovers_witness :
  safe_request Scenario.flaky (API_GUILD_URL Sample.cfg) []
  = (Ok {| status_code := 200; body := GuildJson Sample.roster |},
     [] ++ retry_rounds (API_GUILD_URL Sample.cfg) 2
        ++ [EvGet (API_GUILD_URL Sample.cfg)]).
Proof.
  apply (safe_request_recovers Scenario.flaky (API_GUILD_URL Sample.cfg) [] 2).
  - lia.
  - intros i Hi.
    assert (Hcases : i = 0%nat \/ i = 1%nat) by lia.
    destruct Hcases as [->| ->]; reflexivity.
  - reflexivity.
  - cbn. lia.
  - cbn. lia.
Defined.

(** ** Guild roster: failures *)

(** The first rank other than ["total"] that maps to a count stops the
    loops. *)
Lemma add_ranks_count (before after : list (string * RankEntry))
    (rank : string) (n : Z) :
  rank <> "total"%string ->
  (forall r c, In (r, Count c) before -> r = "total"%string) ->
  forall members : list Member.t,
    add_ranks (before ++ (rank, Count n) :: after) members
    = Raise (Exn AttributeError "'int' object has no attribute 'items'").
Proof.
  intros Hrank. induction before as [|[r entry] before IH];
    intros Hbefore members; cbn [app add_ranks].
  - apply String.eqb_neq in Hrank. now rewrite Hrank.
  - destruct (String.eqb r "total") eqn:Hr.
    + apply IH. intros r' c Hin. apply (Hbefore r' c). now right.
    + destruct entry as [c|players].
      * apply String.eqb_neq in Hr. exfalso. apply Hr.
        apply (Hbefore r c). now left.
      * apply IH. intros r' c Hin. apply (Hbefore r' c). now right.
Qed.

(** X2. Once the guild endpoint has answered, the roster loader raises,
    with no further effect, in four cases: the body is not JSON; the
    document has no ["members"]; a rank other than ["total"] maps to a
    count rather than to players; and, although every member has been
    read, the document has no ["name"]. *)
Theorem roster_loader_failures (cfg : Config) (w : World)
    (tr tr' : list Event) (resp : Response) :
  safe_request w (API_GUILD_URL cfg) tr = (Ok resp, tr') ->
  (forall why, body resp = NotJson why ->
     fetch_guild_members cfg w tr = (Raise (Exn JSONDecodeError why), tr')) /\
  (forall data, json_guild resp = Ok data -> gd_members data = None ->
     fetch_guild_members cfg w tr = (Raise (Exn KeyError "'members'"), tr')) /\
  (forall data before rank n after,
     json_guild resp = Ok data ->
     gd_members data = Some (before ++ (rank, Count n) :: after) ->
     rank <> "total"%string ->
     (forall r c, In (r, Count c) before -> r = "total"%string) ->
     fetch_guild_members cfg w tr
     = (Raise (Exn AttributeError "'int' object has no attribute 'items'"),
        tr')) /\
  (forall data ranks members,
     json_guild resp = Ok data -> gd_members data = Some ranks ->
     add_ranks ranks [] = Ok members -> gd_name data = None ->
     fetch_guild_members cfg w tr = (Raise (Exn KeyError "'name'"), tr')).
Proof.
  intros Hreq. unfold fetch_guild_members, bind, lift, ret. rewrite Hreq.
  repeat split.
  - intros why Hbody. unfold json_guild. now rewrite Hbody.
  - intros data Hdata Hmembers. now rewrite Hdata, Hmembers.
  - intros data before rank n after Hdata Hmembers Hrank Hbefore.
    rewrite Hdata, Hmembers. cbn [subscript].
    now rewrite add_ranks_count.
  - intros data ranks members Hdata Hmembers Hloops Hname.
    rewrite Hdata, Hmembers. cbn [subscript].
    now rewrite Hloops, Hname.
Qed.

Lemma roster_loader_failures_witness :
  let nameless :=
    {| http_get := fun _ _ =>
         Responded {| status_code := 200;
                      body := GuildJson {| gd_name := None;
                                           gd_members := Some Sample.ranks |} |};
       http_post := fun _ _ => RequestFailed "unreachable";
       file_exists := fun _ => false;
       utc_now := fun _ => Sample.now;
       local_stamp := fun _ => "2026-11-04 00:00:00"%string |} in
  fetch_guild_members Sample.cfg nameless []
  = (Raise (Exn KeyError "'name'"), [EvGet (API_GUILD_URL Sample.cfg)]).
Proof.
  intros nameless.
  refine (proj2 (proj2 (proj2
            (roster_loader_failures Sample.cfg nameless []
               [EvGet (API_GUILD_URL Sample.cfg)] _ eq_refl)))
            {| gd_name := None; gd_members := Some Sample.ranks |}
            Sample.ranks _ eq_refl eq_refl eq_refl eq_refl).
Defined.

(** ** The run: roster failure, upload *)

(** X3. When the configuration is complete and every attempt on the
    guild endpoint fails, the process exits with status 1 after exactly
    five requests and five cooldowns: no profile is requested, no report
    file is written and nothing is uploaded. *)
Theorem roster_failure_is_fatal (fromisoformat : string -> option datetime)
    (env : environ) (w : World) (prefix hook : string) :
  getenv env "GUILD_PREFIX" = Some prefix ->
  getenv env "WEBHOOK_URL" = Some hook ->
  let cfg := {| GUILD_PREFIX := prefix; WEBHOOK_URL := hook |} in
  (forall t, attempt_failed (http_get w t (API_GUILD_URL cfg)) = true) ->
  run fromisoformat env w = (1, retry_rounds (API_GUILD_URL cfg) 5).
Proof.
  intros Hp Hh cfg Hfail.
  unfold run, load_config. rewrite Hp, Hh. fold cfg.
  unfold main, fetch_guild_members, bind.
  rewrite (safe_request_exhausted w _ [] Hfail). reflexivity.
Qed.

Lemma roster_failure_is_fatal_witness :
  run Iso.parse Scenario.env Scenario.offline
  = (1, retry_rounds (API_GUILD_URL Scenario.cfg) 5).
Proof.
  apply (roster_failure_is_fatal Iso.parse Scenario.env Scenario.offline
           "ABC" "https://hooks.example/w").
  - reflexivity.
  - reflexivity.
  - intros t. reflexivity.
Defined.

(** The webhook step returns normally, with one upload when a URL is
    configured and the file can be opened, and none otherwise. *)
Lemma send_webhook_file_spec (cfg : Config) (w : World) (filepath : string)
    (message : option string) (tr : list Event) :
  send_webhook_file cfg w filepath message tr
  = (Ok tt,
     if Py.falsy (WEBHOOK_URL cfg) then tr
     else if existsb (written_to filepath) tr || file_exists w filepath
          then tr ++ [EvPost (WEBHOOK_URL cfg) (caption_of cfg message)
                        (Py.basename filepath)]
          else tr).
Proof.
  unfold send_webhook_file.
  destruct (Py.falsy (WEBHOOK_URL cfg)); [reflexivity|].
  unfold try_except, bind, can_open, clock, emit, ret, raise.
  destruct (existsb (written_to filepath) tr || file_exists w filepath);
    [|reflexivity].
  destruct (http_post w (List.length tr) (WEBHOOK_URL cfg)) as [resp|why];
    [destruct (raises_for_status resp)|]; reflexivity.
Qed.






Lemma written_last (tr : list Event) (filepath content : string) :
  existsb (written_to filepath) (tr ++ [EvWrite filepath content]) = true.
Proof.
  rewrite existsb_app. cbn. rewrite String.eqb_refl. apply orb_true_r.
Qed.

(** X5. With a non-empty webhook URL the upload is the last effect of a
    run whose report phase did not raise: the file [guild_activity.txt]
    is posted once, with a caption naming the guild prefix and the time,
    and the exit status is 0 whatever the webhook answers.  When the
    report phase raises, nothing is uploaded and the exit status is 1. *)
Theorem run_uploads_after_report (fromisoformat : string -> option datetime)
    (env : environ) (w : World) (prefix hook : string) :
  getenv env "GUILD_PREFIX" = Some prefix ->
  getenv env "WEBHOOK_URL" = Some hook ->
  hook <> EmptyString ->
  let cfg := {| GUILD_PREFIX := prefix; WEBHOOK_URL := hook |} in
  match report fromisoformat cfg w [] with
  | (Ok _, tr) =>
      run fromisoformat env w
      = (0, tr ++ [EvPost hook
                     (main_caption cfg (local_stamp w (List.length tr)))
                     OUTPUT_FILE]) /\
      filter is_post tr = []
  | (Raise _, tr) =>
      run fromisoformat env w = (1, tr) /\ filter is_post tr = []
  end.
Proof.
  intros Hp Hh Hne cfg.
  unfold run, load_config. rewrite Hp, Hh. fold cfg.
  rewrite main_after_report. unfold bind, clock.
  destruct (report_spec fromisoformat w cfg) as [[ext [Hext Hquiet]] Hlast].
  destruct (report fromisoformat cfg w []) as [[u|e] tr];
    cbn [snd app] in Hext; subst ext.
  - rewrite send_webhook_file_spec.
    cbn [WEBHOOK_URL cfg]. rewrite (falsy_false _ Hne).
    destruct (Hlast u tr eq_refl) as (tr0 & content & ->).
    rewrite written_last. cbn [orb].
    split; [reflexivity | exact Hquiet].
  - split; [reflexivity | exact Hquiet].
Qed.

Lemma run_uploads_after_report_witness :
  exists tr : list Event,
    run Iso.parse Scenario.env Sample.world
    = (0, tr ++ [EvPost "https://hooks.example/w"
                   "Guild report for `ABC` generated at 2026-11-04 00:00:00 UTC"
                   "guild_activity.txt"]) /\
    filter is_post tr = [].
Proof.
  pose proof (run_uploads_after_report Iso.parse Scenario.env Sample.world
                "ABC" "https://hooks.example/w" eq_refl eq_refl) as H.
  cbn zeta in H.
  assert (Hreport :
    fst (report Iso.parse Scenario.cfg Sample.world []) = Ok tt)
    by (vm_compute; reflexivity).
  change {| GUILD_PREFIX := "ABC"; WEBHOOK_URL := "https://hooks.example/w" |}
    with Scenario.cfg in H.
  destruct (report Iso.parse Scenario.cfg Sample.world []) as [[u|e] tr].
  - exists tr. apply H. discriminate.
  - discriminate Hreport.
Defined.

(** X6. A run whose configuration is incomplete has no effect at all
    and exits with status 1; every other run begins with a request to the
    guild endpoint of the configured prefix. *)
Theorem run_starts_with_guild_request
    (fromisoformat : string -> option datetime) (env : environ) (w : World) :
  (getenv env "GUILD_PREFIX" = None \/ getenv env "WEBHOOK_URL" = None ->
   run fromisoformat env w = (1, [])) /\
  (forall prefix hook,
     getenv env "GUILD_PREFIX" = Some prefix ->
     getenv env "WEBHOOK_URL" = Some hook ->
     exists rest : list Event,
       snd (run fromisoformat env w)
       = EvGet ("https://api.wynncraft.com/v3/guild/prefix/" ++ prefix)%string
         :: rest).
Proof.
  split.
  - intros [H|H]; unfold run, load_config; rewrite H;
      [|destruct (getenv env "GUILD_PREFIX")]; reflexivity.
  - intros prefix hook Hp Hh.
    set (cfg := {| GUILD_PREFIX := prefix; WEBHOOK_URL := hook |}).
    assert (Hfirst : forall tr,
              exists rest, snd (safe_request w (API_GUILD_URL cfg) tr)
                           = tr ++ EvGet (API_GUILD_URL cfg) :: rest).
    { intros tr. unfold safe_request.
      destruct (attempts_spec w (API_GUILD_URL cfg) MAX_RETRIES tr)
        as [failed [_ H]].
      destruct (attempts w (API_GUILD_URL cfg) MAX_RETRIES tr)
        as [[resp|e] tr']; cbn [snd].
      - destruct H as (_ & _ & _ & ->).
        destruct failed as [|k]; cbn [retry_rounds retry_round app];
          eexists; reflexivity.
      - destruct H as (_ & _ & ->). cbn. eexists. reflexivity. }
    assert (Hmain : exists rest,
              snd (main fromisoformat cfg w [])
              = EvGet (API_GUILD_URL cfg) :: rest).
    { destruct (Hfirst []) as [rest0 Hrest0]. cbn [app] in Hrest0.
      unfold main, bind at 1.
      unfold fetch_guild_members, bind at 1.
      destruct (safe_request w (API_GUILD_URL cfg) [])
        as [[resp|e] tr1]; cbn [snd] in Hrest0; subst tr1;
        [|eexists; reflexivity].
      unfold lift, bind at 1.
      destruct (json_guild resp) as [data|e]; [|eexists; reflexivity].
      unfold bind at 1.
      destruct (subscript "members" (gd_members data)) as [ranks|e];
        [|eexists; reflexivity].
      unfold bind at 1.
      destruct (add_ranks ranks []) as [members|e]; [|eexists; reflexivity].
      unfold bind at 1.
      destruct (subscript "name" (gd_name data)) as [name|e];
        [|eexists; reflexivity].
      unfold ret. unfold bind at 1.
      pose proof (collect_quiet fromisoformat w members []
                    (EvGet (API_GUILD_URL cfg) :: rest0)) as [e1 [H1 _]].
      destruct (collect fromisoformat w members []
                  (EvGet (API_GUILD_URL cfg) :: rest0)) as [[rows|e] tr2];
        cbn [snd] in H1; subst tr2; [|eexists; reflexivity].
      unfold bind at 1.
      destruct (write_report_spec w cfg (sort_reverse sort_key rows)
                  ((EvGet (API_GUILD_URL cfg) :: rest0) ++ e1))
        as [content Hw].
      destruct (write_report cfg w (sort_reverse sort_key rows)
                  ((EvGet (API_GUILD_URL cfg) :: rest0) ++ e1))
        as [[u|e] tr3]; cbn [snd] in Hw; subst tr3;
        [|eexists; reflexivity].
      unfold bind, clock. rewrite send_webhook_file_spec. cbn [snd].
      rewrite written_last. cbn [orb].
      destruct (Py.falsy (WEBHOOK_URL cfg)); eexists; reflexivity. }
    destruct Hmain as [rest Hrest].
    exists rest. unfold run, load_config. rewrite Hp, Hh. fold cfg.
    destruct (main fromisoformat cfg w []) as [[u|e] tr];
      cbn [snd] in *; exact Hrest.
Qed.

Lemma run_starts_with_guild_request_witness :
  run Iso.parse Sample.env_without_webhook Sample.world = (1, []) /\
  exists rest : list Event,
    snd (run Iso.parse Scenario.env Scenario.offline)
    = EvGet "https://api.wynncraft.com/v3/guild/prefix/ABC" :: rest.
Proof.
  split.
  - apply (proj1 (run_starts_with_guild_request Iso.parse
                    Sample.env_without_webhook Sample.world)).
    right. reflexivity.
  - apply (proj2 (run_starts_with_guild_request Iso.parse
                    Scenario.env Scenario.offline)
             "ABC"%string "https://hooks.example/w"%string);
      reflexivity.
Defined.

(** ** Player activity: shape of the record *)

(** X7. Whatever branch [fetch_player_info] takes, the activity it
    returns has the user name of the profile, or the player identifier
    when the profile has none, and the playtime of the profile, or 0 when
    it has none; and it has a last-login instant exactly when its
    inactivity is a number of seconds rather than infinity. *)
Theorem activity_shape (fromisoformat : string -> option datetime)
    (uuid : string) (data : ProfileDoc) (now_us : Z) (act : Activity.t) :
  activity_of fromisoformat uuid data now_us = Ok act ->
  Activity.current_name act
  = match pd_username data with Some name => name | None => uuid end /\
  Activity.playtime act
  = match pd_playtime data with Some hours => hours | None => NInt 0 end /\
  (Activity.last_join_dt act = None <->
   Activity.inactivity_seconds act = Infinity).
Proof.
  unfold activity_of. intros H.
  assert (Hnever :
    Ok (Activity.make (default uuid (pd_username data))
          (default (NInt 0) (pd_playtime data)) "Never joined" None Infinity)
    = Ok act ->
    Activity.current_name act
    = match pd_username data with Some name => name | None => uuid end /\
    Activity.playtime act
    = match pd_playtime data with Some hours => hours | None => NInt 0 end /\
    (Activity.last_join_dt act = None <->
     Activity.inactivity_seconds act = Infinity)).
  { intros Heq. inversion Heq; subst act. cbn.
    repeat split; reflexivity. }
  destruct (pd_lastJoin data) as [s|]; [|now apply Hnever].
  destruct (Py.falsy s); [now apply Hnever|].
  destruct (fromisoformat (Py.replace_Z s)) as [dt|].
  - destruct (subtract now_us dt) as [delta|e]; [|discriminate].
    destruct (int_total_seconds delta) as [secs|e]; [|discriminate].
    inversion H; subst act. cbn.
    repeat split; try reflexivity; intros Hx; discriminate Hx.
  - inversion H; subst act. cbn. repeat split; reflexivity.
Qed.

Lemma activity_shape_witness :
  Activity.current_name
    (Activity.make "u3" (NInt 0) "Never joined" None Infinity) = "u3"%string /\
  Activity.playtime
    (Activity.make "u3" (NInt 0) "Never joined" None Infinity) = NInt 0 /\
  (Activity.last_join_dt
     (Activity.make "u3" (NInt 0) "Never joined" None Infinity) = None <->
   Activity.inactivity_seconds
     (Activity.make "u3" (NInt 0) "Never joined" None Infinity) = Infinity).
Proof.
  apply (activity_shape Iso.parse "u3" Sample.baz_profile Sample.now).
  reflexivity.
Defined.

(** The activity of a profile whose timestamp parses to an aware instant
    within [2^34] seconds, in the terms of Python's [timedelta]. *)
Lemma activity_of_aware (fromisoformat : string -> option datetime)
    (uuid : string) (data : ProfileDoc) (now_us : Z)
    (s : string) (dt : datetime) (off : Z) :
  pd_lastJoin data = Some s -> s <> EmptyString ->
  fromisoformat (Py.replace_Z s) = Some dt ->
  utcoffset dt = Some off ->
  Z.abs (now_us - (wall_us dt - off)) < 2 ^ 34 * 1000000 ->
  let delta := timedelta_of_us (now_us - (wall_us dt - off)) in
  activity_of fromisoformat uuid data now_us
  = Ok (Activity.make
          (default uuid (pd_username data))
          (default (NInt 0) (pd_playtime data))
          (Py.str_of_int (days delta) ++ "d "
           ++ Py.str_of_int (seconds delta / 3600) ++ "h "
           ++ Py.str_of_int ((seconds delta mod 3600) / 60) ++ "m ago")%string
          (Some dt)
          (Seconds (Z.quot (now_us - (wall_us dt - off)) 1000000))).
Proof.
  intros Hs Hne Hparse Hoff Hbound delta.
  unfold activity_of, subtract, int_total_seconds.
  rewrite Hs, (falsy_false s Hne), Hparse, Hoff.
  rewrite total_seconds_of_us.
  destruct (int_of_quotient _ Hbound) as [x [Hx Hint]].
  rewrite Hx, Hint. reflexivity.
Qed.

(** X8. For a last login in the past, less than [2^34] seconds ago, the
    delta string and the inactivity agree: the days, hours and minutes
    that the string shows are non-negative and account for the inactivity
    up to the seconds of the last minute, which the string leaves out. *)
Theorem delta_str_accounts_for_inactivity
    (fromisoformat : string -> option datetime)
    (uuid : string) (data : ProfileDoc) (now_us : Z)
    (s : string) (dt : datetime) (off : Z) :
  pd_lastJoin data = Some s -> s <> EmptyString ->
  fromisoformat (Py.replace_Z s) = Some dt ->
  utcoffset dt = Some off ->
  0 <= now_us - (wall_us dt - off) < 2 ^ 34 * 1000000 ->
  exists (act : Activity.t) (d h m secs : Z),
    activity_of fromisoformat uuid data now_us = Ok act /\
    Activity.delta_str act
    = (Py.str_of_int d ++ "d " ++ Py.str_of_int h ++ "h "
       ++ Py.str_of_int m ++ "m ago")%string /\
    Activity.inactivity_seconds act
    = Seconds (d * 86400 + h * 3600 + m * 60 + secs) /\
    0 <= d /\ 0 <= h < 24 /\ 0 <= m < 60 /\ 0 <= secs < 60.
Proof.
  intros Hs Hne Hparse Hoff Hrange.
  set (t := now_us - (wall_us dt - off)) in *.
  assert (Hbound : Z.abs t < 2 ^ 34 * 1000000) by lia.
  pose proof (activity_of_aware fromisoformat uuid data now_us s dt off
                Hs Hne Hparse Hoff Hbound) as Hact.
  cbn zeta in Hact. fold t in Hact.
  eexists. exists (days (timedelta_of_us t)),
    (seconds (timedelta_of_us t) / 3600),
    ((seconds (timedelta_of_us t) mod 3600) / 60),
    (seconds (timedelta_of_us t) mod 60).
  split; [exact Hact|]. cbn [Activity.delta_str Activity.inactivity_seconds].
  split; [reflexivity|].
  rewrite Z.quot_div_nonneg by lia.
  unfold timedelta_of_us. cbn [days seconds].
  split; [f_equal|]; Z.div_mod_to_equations; lia.
Qed.

Lemma delta_str_accounts_for_inactivity_witness :
  exists (act : Activity.t) (d h m secs : Z),
    activity_of Iso.parse "u1" Sample.foo_profile Sample.now = Ok act /\
    Activity.delta_str act
    = (Py.str_of_int d ++ "d " ++ Py.str_of_int h ++ "h "
       ++ Py.str_of_int m ++ "m ago")%string /\
    Activity.inactivity_seconds act
    = Seconds (d * 86400 + h * 3600 + m * 60 + secs) /\
    0 <= d /\ 0 <= h < 24 /\ 0 <= m < 60 /\ 0 <= secs < 60.
Proof.
  apply (delta_str_accounts_for_inactivity Iso.parse "u1" Sample.foo_profile
           Sample.now "2026-11-01T10:20:30.500Z"
           {| wall_us := Iso.instant 2026 11 1 10 20 30 500000;
              utcoffset := Some 0 |} 0).
  - reflexivity.
  - discriminate.
  - reflexivity.
  - reflexivity.
  - vm_compute. split; [discriminate | reflexivity].
Defined.

(** X9. For a last login that lies in the future, by less than [2^34]
    seconds, the record is still made: the delta string shows a negative
    number of days with hours and minutes counted upward from it, and the
    inactivity is zero or negative, so that the row is ranked no higher
    than the placeholder of a failed fetch. *)
Theorem future_login_ranks_last
    (fromisoformat : string -> option datetime)
    (uuid : string) (data : ProfileDoc) (now_us : Z)
    (s : string) (dt : datetime) (off : Z) (m : Member.t) (e : exn) :
  pd_lastJoin data = Some s -> s <> EmptyString ->
  fromisoformat (Py.replace_Z s) = Some dt ->
  utcoffset dt = Some off ->
  - (2 ^ 34 * 1000000) < now_us - (wall_us dt - off) < 0 ->
  exists (act : Activity.t) (d h mi secs : Z),
    activity_of fromisoformat uuid data now_us = Ok act /\
    Activity.delta_str act
    = (Py.str_of_int d ++ "d " ++ Py.str_of_int h ++ "h "
       ++ Py.str_of_int mi ++ "m ago")%string /\
    d < 0 /\ 0 <= h < 24 /\ 0 <= mi < 60 /\
    Activity.inactivity_seconds act = Seconds secs /\ secs <= 0 /\
    inactivity_leb (sort_key (merged m act)) (sort_key (placeholder m e))
    = true.
Proof.
  intros Hs Hne Hparse Hoff Hrange.
  set (t := now_us - (wall_us dt - off)) in *.
  assert (Hbound : Z.abs t < 2 ^ 34 * 1000000) by lia.
  pose proof (activity_of_aware fromisoformat uuid data now_us s dt off
                Hs Hne Hparse Hoff Hbound) as Hact.
  cbn zeta in Hact. fold t in Hact.
  assert (Hq : Z.quot t 1000000 <= 0).
  { replace t with (- (- t)) by lia.
    rewrite Z.quot_opp_l by lia.
    pose proof (Z.quot_pos (- t) 1000000 ltac:(lia) ltac:(lia)). lia. }
  eexists. exists (days (timedelta_of_us t)),
    (seconds (timedelta_of_us t) / 3600),
    ((seconds (timedelta_of_us t) mod 3600) / 60),
    (Z.quot t 1000000).
  split; [exact Hact|]. cbn [Activity.delta_str Activity.inactivity_seconds].
  split; [reflexivity|].
  unfold timedelta_of_us. cbn [days seconds].
  split; [Z.div_mod_to_equations; lia|].
  split; [Z.div_mod_to_equations; lia|].
  split; [Z.div_mod_to_equations; lia|].
  split; [reflexivity|]. split; [exact Hq|].
  cbn. apply Z.leb_le. exact Hq.
Qed.

Lemma future_login_ranks_last_witness :
  exists (act : Activity.t) (d h mi secs : Z),
    activity_of Iso.parse "u1" Scenario.early_profile Sample.now = Ok act /\
    Activity.delta_str act
    = (Py.str_of_int d ++ "d " ++ Py.str_of_int h ++ "h "
       ++ Py.str_of_int mi ++ "m ago")%string /\
    d < 0 /\ 0 <= h < 24 /\ 0 <= mi < 60 /\
    Activity.inactivity_seconds act = Seconds secs /\ secs <= 0 /\
    inactivity_leb (sort_key (merged Sample.foo act))
      (sort_key (placeholder Sample.foo (exhausted "x"))) = true.
Proof.
  apply (future_login_ranks_last Iso.parse "u1" Scenario.early_profile
           Sample.now "2026-11-04T00:00:00.500Z"
           {| wall_us := Iso.instant 2026 11 4 0 0 0 500000;
              utcoffset := Some 0 |} 0).
  - reflexivity.
  - discriminate.
  - reflexivity.
  - reflexivity.
  - vm_compute. split; reflexivity.
Defined.

(** ** Ranking: sorted input, infinity *)

Section SortAgain.

Context {A : Type}.
Variable key : A -> inactivity.

Lemma sort_of_ascending (l : list A) :
  StronglySorted (ascends key) l -> sort key l = l.
Proof.
  induction 1 as [|x l Hl IH Hx]; [reflexivity|].
  cbn [sort]. rewrite IH.
  destruct l as [|y l']; [reflexivity|].
  cbn [insert]. inversion Hx as [|? ? Hxy _]; subst.
  unfold ascends in Hxy. now rewrite Hxy.
Qed.

Lemma sort_reverse_of_descending (l : list A) :
  StronglySorted (fun a b => inactivity_leb (key b) (key a) = true) l ->
  sort_reverse key l = l.
Proof.
  intros H. unfold sort_reverse.
  rewrite sort_of_ascending; [apply rev_involutive|].
  apply (StronglySorted_rev
           (fun a b => inactivity_leb (key b) (key a) = true)). exact H.
Qed.

End SortAgain.

(** X10. The sort leaves a list that is already in descending order of
    inactivity exactly as it is, ties included; sorting a second time
    therefore changes nothing. *)
Theorem sort_keeps_sorted_rows (results : list Row.t) :
  (descending results -> sort_reverse sort_key results = results) /\
  sort_reverse sort_key (sort_reverse sort_key results)
  = sort_reverse sort_key results.
Proof.
  split.
  - apply sort_reverse_of_descending.
  - apply sort_reverse_of_descending. apply sort_reverse_sorted.
Qed.

Lemma sort_keeps_sorted_rows_witness :
  sort_reverse sort_key [Sample.seen_recently; Sample.failed]
  = [Sample.seen_recently; Sample.failed].
Proof.
  apply (proj1 (sort_keeps_sorted_rows [Sample.seen_recently; Sample.failed])).
  repeat constructor.
Defined.

(** X11. In the sorted report the rows of infinite inactivity, those of
    players who never joined or whose timestamp is invalid, come first:
    every row above a row of infinite inactivity has infinite inactivity
    itself, and among themselves these rows keep the order of the
    roster. *)
Theorem never_joined_rows_on_top (results before after : list Row.t)
    (r : Row.t) :
  sort_reverse sort_key results = before ++ r :: after ->
  sort_key r = Infinity ->
  Forall (fun x => Row.inactivity_seconds x = Some Infinity) before /\
  before ++ [r] ++ with_key Infinity after = with_key Infinity results.
Proof.
  intros Hsorted Hr.
  pose proof (sort_reverse_sorted sort_key results) as S.
  rewrite Hsorted in S. apply StronglySorted_split in S.
  destruct S as [Hbefore _].
  assert (Hinf : Forall (fun x => sort_key x = Infinity) before).
  { eapply Forall_impl; [|exact Hbefore].
    intros x Hx. cbn beta in Hx. rewrite Hr in Hx.
    destruct (sort_key x); [discriminate | reflexivity]. }
  split.
  - eapply Forall_impl; [|exact Hinf].
    intros x Hx. unfold sort_key in Hx.
    destruct (Row.inactivity_seconds x) as [v|]; cbn in Hx;
      [now subst v | discriminate].
  - unfold with_key.
    rewrite <- (filter_sort_reverse sort_key Infinity results).
    rewrite Hsorted, filter_app. cbn [filter]. rewrite Hr. cbn [inactivity_eqb app].
    f_equal. clear - Hinf.
    induction Hinf as [|x l Hx _ IH]; [reflexivity|].
    cbn [filter]. rewrite Hx. cbn [inactivity_eqb]. now rewrite <- IH.
Qed.

Lemma never_joined_rows_on_top_witness :
  let never :=
    merged Sample.bar
      (Activity.make "Bar" (NInt 0) "Never joined" None Infinity) in
  Forall (fun x => Row.inactivity_seconds x = Some Infinity) [] /\
  [] ++ [never] ++ with_key Infinity [Sample.seen_recently; Sample.failed]
  = with_key Infinity [Sample.seen_recently; Sample.failed; never].
Proof.
  intros never.
  apply (never_joined_rows_on_top
           [Sample.seen_recently; Sample.failed; never] []
           [Sample.seen_recently; Sample.failed] never);
    reflexivity.
Defined.

(** ** The report file: content *)

Lemma write_rows_rendered (rows : list Row.t) (lines : list string) :
  rendered rows lines ->
  forall written : string,
    write_rows rows written = ((written ++ join lines)%string, None).
Proof.
  induction 1 as [|r line rows lines Hr _ IH]; intros written; cbn.
  - f_equal. clear. induction written; cbn; congruence.
  - rewrite Hr, IH. now rewrite append_assoc.
Qed.

Lemma write_rows_stopped (good : list Row.t) (lines : list string)
    (bad : Row.t) (e : exn) (rest : list Row.t) :
  rendered good lines -> render_row bad = Raise e ->
  forall written : string,
    write_rows (good ++ bad :: rest) written
    = ((written ++ join lines)%string, Some e).
Proof.
  intros Hgood Hbad.
  induction Hgood as [|r line rows lines Hr _ IH]; intros written; cbn.
  - rewrite Hbad. f_equal. clear. induction written; cbn; congruence.
  - rewrite Hr, IH. now rewrite append_assoc.
Qed.

(** X12. The report file holds the head lines followed by the line of
    each row, in the order of the rows.  When a row cannot be rendered,
    the file is left with the head lines and the lines of the rows before
    it, and the exception of that row is raised: no later row is
    written. *)
Theorem report_file_content (cfg : Config) (w : World) (tr : list Event) :
  let head := report_head cfg (local_stamp w (List.length tr)) in
  (forall rows lines,
     rendered rows lines ->
     write_report cfg w rows tr
     = (Ok tt, tr ++ [EvWrite "guild_activity.txt" (head ++ join lines)%string])) /\
  (forall good lines bad e rest,
     rendered good lines -> render_row bad = Raise e ->
     write_report cfg w (good ++ bad :: rest) tr
     = (Raise e, tr ++ [EvWrite "guild_activity.txt" (head ++ join lines)%string])).
Proof.
  cbn zeta. split.
  - intros rows lines Hrows.
    unfold write_report, bind, clock, emit, ret.
    now rewrite (write_rows_rendered rows lines Hrows).
  - intros good lines bad e rest Hgood Hbad.
    unfold write_report, bind, clock, emit, raise.
    now rewrite (write_rows_stopped good lines bad e rest Hgood Hbad).
Qed.

Lemma report_file_content_witness :
  write_report Sample.cfg Sample.world
    [Sample.seen_recently;
     merged Sample.bar
       (Activity.make "Bar" (NInt (2 ^ 1024)) "Never joined" None Infinity);
     Sample.failed] []
  = (Raise (Exn OverflowError "int too large to convert to float"),
     [] ++ [EvWrite "guild_activity.txt"
              (report_head Sample.cfg "2026-11-04 00:00:00"
               ++ join ["Foo                  | FooBar               | owner      |   12.5h | 0d 0h 1m ago"
                        ++ newline])%string]).
Proof.
  apply (proj2 (report_file_content Sample.cfg Sample.world [])
           [Sample.seen_recently] _
           (merged Sample.bar
              (Activity.make "Bar" (NInt (2 ^ 1024)) "Never joined" None
                 Infinity))
           _ [Sample.failed]).
  - repeat constructor.
  - vm_compute. reflexivity.
Defined.

(** ** Formatting: playtimes that render *)

Lemma float_of_int_in_range (z : Z) :
  Z.abs z < 2 ^ 1023 -> exists x, Py.float_of_int z = Some x.
Proof.
  intros Hz. unfold Py.float_of_int, Py.true_divide.
  destruct (z =? 0) eqn:E0; [eexists; reflexivity|].
  apply Z.eqb_neq in E0.
  set (n := Z.abs z) in *.
  assert (Hn : 0 < n) by (unfold n; lia).
  set (e := Py.binade n 1).
  assert (He : e <= Z.log2 n - 52).
  { unfold e, Py.binade. change (Z.log2 1) with 0.
    destruct (Py.scaled n 1 (Z.log2 n - 0 - 52)) as [p q].
    destruct (p / q <? 2 ^ 52); lia. }
  assert (HL : Z.log2 n < 1023) by (apply Z.log2_lt_pow2; lia).
  unfold Py.scaled.
  destruct (0 <=? e) eqn:Ee.
  - apply Z.leb_le in Ee. rewrite Z.mul_1_l.
    destruct (round_half_even_bounds n (2 ^ e)) as [[_ Hhi] _].
    set (m := Py.round_half_even n (2 ^ e)) in *.
    assert (Hpow : 0 < 2 ^ e) by (apply Z.pow_pos_nonneg; lia).
    assert (Hmul : m * 2 ^ e <= n + 2 ^ e).
    { pose proof (Z.mul_div_le n (2 ^ e) Hpow). nia. }
    assert (Hsmall : 2 ^ e <= 2 ^ 970) by (apply Z.pow_le_mono_r; lia).
    assert (Hsum : 2 ^ 1023 + 2 ^ 970 < 2 ^ 1024) by (vm_compute; reflexivity).
    destruct (2 ^ 1024 <=? m * 2 ^ e) eqn:Eo; [|eexists; reflexivity].
    apply Z.leb_le in Eo. lia.
  - apply Z.leb_gt in Ee. rewrite (Z.pow_neg_r 2 e) by lia.
    rewrite Z.mul_0_r.
    destruct (2 ^ 1024 <=? 0) eqn:Eo; [|eexists; reflexivity].
    apply Z.leb_le in Eo. exfalso. revert Eo. vm_compute. congruence.
Qed.

(** X13. A row whose playtime is a float, or an integer below [2^1023]
    in magnitude, renders; in particular the placeholder of a failed
    fetch always renders.  For an integer playtime the only failure of
    rendering is an [OverflowError], and only at a magnitude of [2^1023]
    or more. *)
Theorem rows_in_range_render (r : Row.t) :
  ((forall z, Row.playtime r = NInt z -> Z.abs z < 2 ^ 1023) ->
   exists line, render_row r = Ok line) /\
  (forall m e, exists line, render_row (placeholder m e) = Ok line) /\
  (forall z e, Row.playtime r = NInt z -> render_row r = Raise e ->
     exn_kind_of e = OverflowError /\ 2 ^ 1023 <= Z.abs z).
Proof.
  unfold render_row, format_playtime. split; [|split].
  - intros Hrange.
    destruct (Row.playtime r) as [z|f]; [|eexists; reflexivity].
    destruct (float_of_int_in_range z (Hrange z eq_refl)) as [x Hx].
    rewrite Hx. eexists. reflexivity.
  - intros m e. eexists. reflexivity.
  - intros z e Hz He. rewrite Hz in He.
    destruct (Py.float_of_int z) as [x|] eqn:Hx; [discriminate|].
    inversion He; subst e. split; [reflexivity|].
    destruct (Z_lt_le_dec (Z.abs z) (2 ^ 1023)) as [Hlt|Hge]; [|exact Hge].
    destruct (float_of_int_in_range z Hlt) as [x Hx'].
    rewrite Hx in Hx'. discriminate.
Qed.

Lemma rows_in_range_render_witness :
  exists line, render_row Sample.failed = Ok line.
Proof.
  apply (proj1 (rows_in_range_render Sample.failed)).
  intros z Hz. inversion Hz. vm_compute. reflexivity.
Defined.

(** ** The loop over the members: load on the API *)

Lemma rounds_without (p : Event -> bool) (url : string) (k : nat) :
  p (EvGet url) = false -> p (EvSleep RETRY_DELAY) = false ->
  filter p (retry_rounds url k) = [].
Proof.
  intros H1 H2. induction k as [|k IH]; [reflexivity|].
  cbn [retry_rounds retry_round app filter]. now rewrite H1, H2.
Qed.

(** One call of [safe_request]: between one and five requests, and
    nothing but requests and cooldowns. *)
Lemma safe_request_load (w : World) (url : string) (tr : list Event) :
  exists ext : list Event,
    snd (safe_request w url tr) = tr ++ ext /\
    filter is_throttle ext = [] /\ filter is_write ext = [] /\
    filter is_post ext = [] /\
    (1 <= List.length (filter is_get ext) <= 5)%nat.
Proof.
  unfold safe_request.
  destruct (attempts_spec w url MAX_RETRIES tr) as [failed [_ H]].
  destruct (attempts w url MAX_RETRIES tr) as [[resp|e] tr']; cbn [snd].
  - destruct H as (Hlt & _ & _ & ->). eexists. split; [reflexivity|].
    rewrite !filter_app, !rounds_without by reflexivity.
    rewrite length_app, gets_in_rounds. cbn.
    unfold MAX_RETRIES in Hlt. repeat split; lia.
  - destruct H as (_ & _ & ->). eexists. split; [reflexivity|].
    rewrite !rounds_without by reflexivity.
    rewrite gets_in_rounds. unfold MAX_RETRIES. repeat split; lia.
Qed.

Lemma fetch_player_info_load (fromisoformat : string -> option datetime)
    (w : World) (uuid : string) (tr : list Event) :
  exists ext : list Event,
    snd (fetch_player_info fromisoformat w uuid tr) = tr ++ ext /\
    filter is_throttle ext = [] /\ filter is_write ext = [] /\
    filter is_post ext = [] /\
    (1 <= List.length (filter is_get ext) <= 5)%nat.
Proof.
  pose proof (safe_request_load w (API_PLAYER_URL uuid) tr) as H.
  unfold fetch_player_info, bind, lift, clock.
  destruct (safe_request w (API_PLAYER_URL uuid) tr) as [[resp|e] tr1];
    [|exact H].
  destruct (json_profile resp) as [data|e]; exact H.
Qed.

(** X14. The loop of [main] pauses exactly once per member, after each
    fetch and also after the last one, and makes between one and five
    profile requests per member; it writes no file and uploads
    nothing. *)
Theorem member_loop_load (fromisoformat : string -> option datetime)
    (w : World) (members : list Member.t) (results : list Row.t)
    (tr : list Event) :
  exists ext : list Event,
    snd (collect fromisoformat w members results tr) = tr ++ ext /\
    List.length (filter is_throttle ext) = List.length members /\
    (List.length members <= List.length (filter is_get ext)
     <= 5 * List.length members)%nat /\
    filter is_write ext = [] /\ filter is_post ext = [].
Proof.
  revert results tr.
  induction members as [|m members IH]; intros results tr.
  - exists []. cbn. rewrite app_nil_r. repeat split; lia.
  - cbn [collect]. unfold bind at 1, try_except, bind at 1.
    destruct (fetch_player_info_load fromisoformat w (Member.uuid m) tr)
      as (e1 & H1 & Ht & Hw & Hp & Hg).
    destruct (fetch_player_info fromisoformat w (Member.uuid m) tr)
      as [[info|e] tr1]; cbn [ret snd] in *; unfold emit, bind at 1;
      subst tr1.
    + destruct (IH (results ++ [merged m info]) ((tr ++ e1) ++ [EvThrottle]))
        as (e2 & H2 & Ht2 & Hg2 & Hw2 & Hp2).
      exists (e1 ++ [EvThrottle] ++ e2).
      rewrite H2, !filter_app, !length_app, Ht, Hw, Hp, Hw2, Hp2, Ht2.
      cbn [filter is_throttle is_write is_post is_get app List.length].
      rewrite <- !app_assoc. repeat split; lia.
    + destruct (IH (results ++ [placeholder m e]) ((tr ++ e1) ++ [EvThrottle]))
        as (e2 & H2 & Ht2 & Hg2 & Hw2 & Hp2).
      exists (e1 ++ [EvThrottle] ++ e2).
      rewrite H2, !filter_app, !length_app, Ht, Hw, Hp, Hw2, Hp2, Ht2.
      cbn [filter is_throttle is_write is_post is_get app List.length].
      rewrite <- !app_assoc. repeat split; lia.
Qed.

(** ** The run when no profile can be fetched *)

Lemma collect_all_failed (fromisoformat : string -> option datetime)
    (w : World) (members : list Member.t) :
  (forall m t, In m members ->
     attempt_failed (http_get w t (API_PLAYER_URL (Member.uuid m))) = true) ->
  forall (results : list Row.t) (tr : list Event),
    collect fromisoformat w members results tr
    = (Ok (results ++
           map (fun m => placeholder m (exhausted (API_PLAYER_URL (Member.uuid m))))
               members),
       tr ++ flat_map failed_fetch members).
Proof.
  induction members as [|m members IH]; intros Hfail results tr.
  - cbn. now rewrite !app_nil_r.
  - cbn [collect]. unfold bind at 1, try_except, bind at 1.
    unfold fetch_player_info, bind at 1.
    rewrite (safe_request_exhausted w _ tr (fun t => Hfail m t (or_introl eq_refl))).
    cbn [ret]. unfold emit, bind at 1.
    rewrite IH by (intros m' t Hin; apply Hfail; now right).
    cbn [map flat_map]. unfold failed_fetch at 2.
    now rewrite <- !app_assoc.
Qed.

Lemma placeholders_descending (members : list Member.t)
    (e : Member.t -> exn) :
  descending (map (fun m => placeholder m (e m)) members).
Proof.
  induction members as [|m members IH]; cbn [map]; constructor.
  - exact IH.
  - clear IH. induction members as [|m' members IH]; cbn [map];
      constructor; [reflexivity | exact IH].
Qed.

Lemma placeholders_rendered (members : list Member.t) :
  rendered
    (map (fun m => placeholder m (exhausted (API_PLAYER_URL (Member.uuid m))))
         members)
    (map error_line members).
Proof.
  induction members as [|m members IH]; cbn [map]; constructor;
    [reflexivity | exact IH].
Qed.

(** X15. When the roster is loaded and every attempt on every member's
    profile fails, the run still completes with exit status 0: after five
    requests, five cooldowns and one pause per member, it writes a report
    with one ["Error"] line per member, in the order of the roster, each
    with playtime 0.0 and the message of the failed fetch; then it makes
    the upload, if a webhook URL is configured. *)
Theorem run_with_unreachable_profiles
    (fromisoformat : string -> option datetime) (env : environ) (w : World)
    (prefix hook : string) (members : list Member.t) (tr1 : list Event) :
  getenv env "GUILD_PREFIX" = Some prefix ->
  getenv env "WEBHOOK_URL" = Some hook ->
  let cfg := {| GUILD_PREFIX := prefix; WEBHOOK_URL := hook |} in
  fetch_guild_members cfg w [] = (Ok members, tr1) ->
  (forall m t, In m members ->
     attempt_failed (http_get w t (API_PLAYER_URL (Member.uuid m))) = true) ->
  let fetched := tr1 ++ flat_map failed_fetch members in
  let written :=
    fetched ++
    [EvWrite "guild_activity.txt"
       (report_head cfg (local_stamp w (List.length fetched))
        ++ join (map error_line members))%string] in
  run fromisoformat env w
  = (0,
     if Py.falsy hook then written
     else written ++
          [EvPost hook (main_caption cfg (local_stamp w (List.length written)))
             "guild_activity.txt"]).
Proof.
  intros Hp Hh cfg Hroster Hfail fetched written.
  unfold run, load_config. rewrite Hp, Hh. fold cfg.
  unfold main, bind. rewrite Hroster.
  rewrite (collect_all_failed fromisoformat w members Hfail [] tr1).
  cbn [app]. fold fetched.
  rewrite (sort_reverse_of_descending sort_key _
             (placeholders_descending members _)).
  unfold write_report, bind, clock, emit, ret.
  rewrite (write_rows_rendered _ _ (placeholders_rendered members)).
  fold written.
  rewrite send_webhook_file_spec. cbn [WEBHOOK_URL cfg].
  unfold written at 1. rewrite written_last. reflexivity.
Qed.

Lemma run_with_unreachable_profiles_witness :
  run Iso.parse Scenario.env Scenario.roster_only
  = (0,
     [EvGet (API_GUILD_URL Scenario.cfg)]
     ++ failed_fetch Sample.foo ++ failed_fetch Sample.bar
     ++ failed_fetch (Member.make "u3" "Baz" "recruit" 0 "2024-06-01T00:00:00.000Z")
     ++ [EvWrite "guild_activity.txt"
           (report_head Scenario.cfg "2026-11-04 00:00:00"
            ++ error_line Sample.foo ++ error_line Sample.bar
            ++ error_line (Member.make "u3" "Baz" "recruit" 0
                             "2024-06-01T00:00:00.000Z"))%string;
         EvPost "https://hooks.example/w"
           "Guild report for `ABC` generated at 2026-11-04 00:00:00 UTC"
           "guild_activity.txt"]).
Proof.
  rewrite (run_with_unreachable_profiles Iso.parse Scenario.env
             Scenario.roster_only "ABC" "https://hooks.example/w"
             [Sample.foo; Sample.bar;
              Member.make "u3" "Baz" "recruit" 0 "2024-06-01T00:00:00.000Z"]
             [EvGet (API_GUILD_URL Scenario.cfg)]
             eq_refl eq_refl eq_refl).
  - vm_compute. reflexivity.
  - intros m t [<-|[<-|[<-|[]]]]; reflexivity.
Defined.

(** ** The report file: alignment *)

(** X16. The lines of all rows whose names, rank and playtime fit their
    columns are aligned: the delta string starts at the 70th character of
    the line, after 69 characters of columns and separators, and the line
    ends right after it. *)
Theorem fitting_rows_align (r : Row.t) (line : string) :
  fits r -> render_row r = Ok line ->
  exists columns : string,
    line = (columns ++ Row.delta_str r ++ newline)%string /\
    String.length columns = 69%nat /\
    String.length line = (70 + String.length (Row.delta_str r))%nat.
Proof.
  intros (H1 & H2 & H3 & x & Hx & H4) Hline.
  unfold render_row, format_playtime in Hline.
  assert (Hfmt : match Row.playtime r with
                 | NInt z =>
                     match Py.float_of_int z with
                     | Some f => Ok (Py.rjust (Py.fixed1 f) 6)
                     | None =>
                         Raise (Exn OverflowError
                                  "int too large to convert to float")
                     end
                 | NFloat f => Ok (Py.rjust (Py.fixed1 f) 6)
                 end = @Ok string (Py.rjust (Py.fixed1 x) 6)).
  { destruct (Row.playtime r) as [z|f]; cbn [float_of] in Hx.
    - now rewrite Hx.
    - now inversion Hx. }
  rewrite Hfmt in Hline. inversion Hline as [Heq]. clear Hline Hfmt.
  exists (Py.ljust (Row.guild_name r) 20 ++ " | "
          ++ Py.ljust (Row.current_name r) 20 ++ " | "
          ++ Py.ljust (Row.rank r) 10 ++ " | "
          ++ Py.rjust (Py.fixed1 x) 6 ++ "h | ")%string.
  assert (Hcols :
    String.length
      (Py.ljust (Row.guild_name r) 20 ++ " | "
       ++ Py.ljust (Row.current_name r) 20 ++ " | "
       ++ Py.ljust (Row.rank r) 10 ++ " | "
       ++ Py.rjust (Py.fixed1 x) 6 ++ "h | ")%string = 69%nat).
  { rewrite !append_length, !ljust_length, rjust_length.
    cbn [String.length]. lia. }
  split; [|split; [exact Hcols|]].
  - now rewrite !append_assoc.
  - transitivity
      (String.length
         ((Py.ljust (Row.guild_name r) 20 ++ " | "
           ++ Py.ljust (Row.current_name r) 20 ++ " | "
           ++ Py.ljust (Row.rank r) 10 ++ " | "
           ++ Py.rjust (Py.fixed1 x) 6 ++ "h | ")
          ++ Row.delta_str r ++ newline)%string).
    + f_equal. now rewrite !append_assoc.
    + rewrite append_length, Hcols, append_length.
      cbn [String.length newline]. lia.
Qed.

Lemma fitting_rows_align_witness :
  exists columns : string,
    ("Foo                  | FooBar               | owner      |   12.5h | 0d 0h 1m ago"
     ++ newline)%string
    = (columns ++ "0d 0h 1m ago" ++ newline)%string /\
    String.length columns = 69%nat /\
    String.length
      ("Foo                  | FooBar               | owner      |   12.5h | 0d 0h 1m ago"
       ++ newline)%string = (70 + 12)%nat.
Proof.
  apply (fitting_rows_align Sample.seen_recently).
  - repeat split; cbn; try lia.
    exists Sample.twelve_and_a_half. split; [reflexivity | cbn; lia].
  - reflexivity.
Defined.

(** ** Profiles that are fetched but cannot be read *)

(** X17. A profile that is fetched but cannot be used does not stop the
    loop of [main] either.  When the body of the answer is not JSON, or
    when the timestamp parses to an instant without a UTC offset, so that
    the subtraction from the current instant raises, the member gets the
    placeholder row with the message of that exception, and the loop
    pauses and goes on. *)
Theorem unreadable_profile_becomes_error_row
    (fromisoformat : string -> option datetime) (w : World) (m : Member.t)
    (results : list Row.t) (tr tr' : list Event) (resp : Response) :
  safe_request w (API_PLAYER_URL (Member.uuid m)) tr = (Ok resp, tr') ->
  (forall why, body resp = NotJson why ->
     collect fromisoformat w [m] results tr
     = (Ok (results ++ [placeholder m (Exn JSONDecodeError why)]),
        tr' ++ [EvThrottle])) /\
  (forall data s dt,
     body resp = ProfileJson data ->
     pd_lastJoin data = Some s -> s <> EmptyString ->
     fromisoformat (Py.replace_Z s) = Some dt -> utcoffset dt = None ->
     collect fromisoformat w [m] results tr
     = (Ok (results ++
            [placeholder m
               (Exn TypeError
                  "can't subtract offset-naive and offset-aware datetimes")]),
        tr' ++ [EvThrottle]) /\
     Row.delta_str
       (placeholder m
          (Exn TypeError
             "can't subtract offset-naive and offset-aware datetimes"))
     = "Error: can't subtract offset-naive and offset-aware datetimes"%string).
Proof.
  intros Hreq. split.
  - intros why Hbody.
    cbn [collect]. unfold bind, try_except, fetch_player_info, bind, lift.
    rewrite Hreq. unfold json_profile. rewrite Hbody. reflexivity.
  - intros data s dt Hbody Hs Hne Hparse Hoff. split; [|reflexivity].
    cbn [collect].
    unfold bind, try_except, fetch_player_info, bind, lift, clock.
    rewrite Hreq. unfold json_profile. rewrite Hbody.
    unfold activity_of, subtract.
    rewrite Hs, (falsy_false s Hne), Hparse, Hoff. reflexivity.
Qed.

Lemma unreadable_profile_becomes_error_row_witness :
  let naive :=
    {| http_get := fun _ _ =>
         Responded
           {| status_code := 200;
              body := ProfileJson
                        {| pd_username := Some "Foo"%string;
                           pd_playtime := None;
                           pd_lastJoin := Some "2024-01-01T00:00:00"%string |} |};
       http_post := fun _ _ => RequestFailed "unreachable";
       file_exists := fun _ => false;
       utc_now := fun _ => Sample.now;
       local_stamp := fun _ => "2026-11-04 00:00:00"%string |} in
  collect Iso.parse naive [Sample.foo] [] []
  = (Ok ([] ++
         [placeholder Sample.foo
            (Exn TypeError
               "can't subtract offset-naive and offset-aware datetimes")]),
     [EvGet (API_PLAYER_URL "u1")] ++ [EvThrottle]).
Proof.
  intros naive.
  refine (proj1 (proj2 (unreadable_profile_becomes_error_row Iso.parse naive
                          Sample.foo [] [] [EvGet (API_PLAYER_URL "u1")]
                          _ eq_refl)
                   _ "2024-01-01T00:00:00"%string
                   {| wall_us := Iso.instant 2024 1 1 0 0 0 0;
                      utcoffset := None |}
                   eq_refl eq_refl _ eq_refl eq_refl)).
  discriminate.
Defined.

(** ** The report file: one line per member *)

Lemma write_rows_complete (rows : list Row.t) :
  forall written content : string,
    write_rows rows written = (content, None) ->
    exists lines : list string,
      rendered rows lines /\ content = (written ++ join lines)%string.
Proof.
  induction rows as [|r rows IH]; intros written content H; cbn in H.
  - inversion H; subst. exists []. split; [constructor|].
    cbn. clear. induction content; cbn; congruence.
  - destruct (render_row r) as [line|e] eqn:Hr; [|discriminate].
    destruct (IH _ _ H) as [lines [Hlines ->]].
    exists (line :: lines). split; [now constructor|].
    cbn. now rewrite append_assoc.
Qed.

(** X18. When the report phase of a run does not raise, the file it
    writes has, after the head lines, exactly one line per member of the
    roster: the lines of the rows that the loop made for the members,
    taken in the order of the sort. *)
Theorem report_has_one_line_per_member
    (fromisoformat : string -> option datetime) (cfg : Config) (w : World)
    (members : list Member.t) (tr1 tr : list Event) (u : unit) :
  fetch_guild_members cfg w [] = (Ok members, tr1) ->
  report fromisoformat cfg w [] = (Ok u, tr) ->
  exists (rows : list Row.t) (lines : list string) (tr2 : list Event),
    Forall2 (row_of fromisoformat w) members rows /\
    rendered (sort_reverse sort_key rows) lines /\
    List.length lines = List.length members /\
    tr = tr2 ++
         [EvWrite "guild_activity.txt"
            (report_head cfg (local_stamp w (List.length tr2))
             ++ join lines)%string].
Proof.
  intros Hroster Hreport.
  unfold report, bind in Hreport. rewrite Hroster in Hreport.
  destruct (collect_spec fromisoformat w members [] tr1)
    as (rows & tr2 & Hrows & Hall).
  cbn [app] in Hrows. rewrite Hrows in Hreport.
  unfold write_report, bind, clock, emit, ret, raise in Hreport.
  destruct (write_rows (sort_reverse sort_key rows)
              (report_head cfg (local_stamp w (List.length tr2))))
    as [content [e|]] eqn:Hwrite; [discriminate|].
  destruct (write_rows_complete _ _ _ Hwrite) as [lines [Hlines ->]].
  inversion Hreport; subst tr.
  exists rows, lines, tr2.
  split; [exact Hall|]. split; [exact Hlines|]. split; [|reflexivity].
  rewrite <- (Forall2_length Hlines).
  rewrite <- (Permutation_length (sort_reverse_perm sort_key rows)).
  symmetry. eapply Forall2_length. exact Hall.
Qed.

Lemma report_has_one_line_per_member_witness :
  exists (rows : list Row.t) (lines : list string) (tr2 : list Event),
    Forall2 (row_of Iso.parse Sample.world)
      [Sample.foo; Sample.bar;
       Member.make "u3" "Baz" "recruit" 0 "2024-06-01T00:00:00.000Z"] rows /\
    rendered (sort_reverse sort_key rows) lines /\
    List.length lines = 3%nat /\
    snd (report Iso.parse Sample.cfg Sample.world [])
    = tr2 ++
      [EvWrite "guild_activity.txt"
         (report_head Sample.cfg
            (local_stamp Sample.world (List.length tr2))
          ++ join lines)%string].
Proof.
  assert (Hreport :
    exists tr, report Iso.parse Sample.cfg Sample.world [] = (Ok tt, tr)).
  { eexists. vm_compute. reflexivity. }
  destruct Hreport as [tr Hreport]. rewrite Hreport. cbn [snd].
  apply (report_has_one_line_per_member Iso.parse Sample.cfg Sample.world
           [Sample.foo; Sample.bar;
            Member.make "u3" "Baz" "recruit" 0 "2024-06-01T00:00:00.000Z"]
           [EvGet (API_GUILD_URL Sample.cfg)] tr tt).
  - reflexivity.
  - exact Hreport.
Defined.
